(** * USI I2C slave: register file, typed accessors and protocol engine

    Shallow embedding of [src/usi_i2c_slave.c] (ATtiny25/45/85, avr-gcc).

    Integers are [Z] with the C conversions written out.  On avr-gcc
    [int] is 16 bits wide and [long] 32 bits wide, multi-byte objects are
    stored least significant byte first, and there is no alignment
    restriction.  The register file [i2c_slave.registers] is a list of
    bytes; an access outside of it has no defined behaviour in C and is
    reported as [OutOfBounds]. *)

From Stdlib Require Import ZArith List Lia Bool.
From stdpp Require Import base list.
Import ListNotations.
Local Open Scope Z_scope.

(** ** Results of fallible code *)

Inductive error : Type :=
| OutOfBounds   (* access outside [i2c_slave.registers] *)
| BusHung.      (* the polled pin never showed the awaited level *)

Inductive result (A : Type) : Type :=
| Ok (a : A)
| Err (e : error).
Arguments Ok {A} a.
Arguments Err {A} e.

#[global] Instance result_ret : MRet result := fun A a => Ok a.

#[global] Instance result_bind : MBind result := fun A B k r =>
  match r with
  | Ok a => k a
  | Err e => Err e
  end.

(** ** Integer conversions of avr-gcc *)

(** Conversion to an unsigned type of [w] bits. *)
Definition to_unsigned (w x : Z) : Z := x mod 2 ^ w.

(** Conversion to a signed type of [w] bits (two's complement wrap). *)
Definition to_signed (w x : Z) : Z := (x + 2 ^ (w - 1)) mod 2 ^ w - 2 ^ (w - 1).

Definition u8 (x : Z) : Z := to_unsigned 8 x.

(** [_BV(n)], that is [(1 << n)]. *)
Definition bv (n : Z) : Z := Z.shiftl 1 n.

Definition bit_is_set (sfr n : Z) : bool := Z.testbit sfr n.
Definition bit_is_clear (sfr n : Z) : bool := negb (Z.testbit sfr n).

(** Byte [i] of the object representation of an integer. *)
Definition byte_of (x i : Z) : Z := Z.land (Z.shiftr x (8 * i)) 255.

(** ** Bits of the USI registers (avr/io.h, ATtiny25/45/85) *)

Definition USICNT0 : Z := 0.
Definition USICNT1 : Z := 1.
Definition USICNT2 : Z := 2.
Definition USICNT3 : Z := 3.
Definition USIDC : Z := 4.
Definition USIPF : Z := 5.
Definition USIOIF : Z := 6.
Definition USISIF : Z := 7.

Definition USICS1 : Z := 3.
Definition USIWM1 : Z := 5.
Definition USIOIE : Z := 6.
Definition USISIE : Z := 7.

(** ** Program state

    The three file-scope variables, the object [i2c_slave] with its
    array [registers] and its field [direction], and the I/O registers
    the code writes.  [i2c_slave] and the names [I2CD], [I2CP], [I2CPN],
    [SDAP] and [SCLP] are declared in [usi_i2c_slave.h]: [I2CD] and [I2CP]
    are the data-direction and port registers of the bus pins, [I2CPN] is
    their input register.  The size of the array is left open: it is the
    length of the list. *)

Record state : Type := mkState {
  status : Z;
  rdir : Z;
  ack : Z;
  registers : list Z;
  direction : Z;
  USIDR : Z;
  USISR : Z;
  USICR : Z;
  I2CD : Z;
  I2CP : Z
}.

Definition set_status (v : Z) (s : state) : state :=
  mkState v (rdir s) (ack s) (registers s) (direction s)
          (USIDR s) (USISR s) (USICR s) (I2CD s) (I2CP s).
Definition set_rdir (v : Z) (s : state) : state :=
  mkState (status s) v (ack s) (registers s) (direction s)
          (USIDR s) (USISR s) (USICR s) (I2CD s) (I2CP s).
Definition set_ack (v : Z) (s : state) : state :=
  mkState (status s) (rdir s) v (registers s) (direction s)
          (USIDR s) (USISR s) (USICR s) (I2CD s) (I2CP s).
Definition set_registers (v : list Z) (s : state) : state :=
  mkState (status s) (rdir s) (ack s) v (direction s)
          (USIDR s) (USISR s) (USICR s) (I2CD s) (I2CP s).
Definition set_direction (v : Z) (s : state) : state :=
  mkState (status s) (rdir s) (ack s) (registers s) v
          (USIDR s) (USISR s) (USICR s) (I2CD s) (I2CP s).
Definition set_USIDR (v : Z) (s : state) : state :=
  mkState (status s) (rdir s) (ack s) (registers s) (direction s)
          v (USISR s) (USICR s) (I2CD s) (I2CP s).
Definition set_USISR (v : Z) (s : state) : state :=
  mkState (status s) (rdir s) (ack s) (registers s) (direction s)
          (USIDR s) v (USICR s) (I2CD s) (I2CP s).
Definition set_USICR (v : Z) (s : state) : state :=
  mkState (status s) (rdir s) (ack s) (registers s) (direction s)
          (USIDR s) (USISR s) v (I2CD s) (I2CP s).
Definition set_I2CD (v : Z) (s : state) : state :=
  mkState (status s) (rdir s) (ack s) (registers s) (direction s)
          (USIDR s) (USISR s) (USICR s) v (I2CP s).
Definition set_I2CP (v : Z) (s : state) : state :=
  mkState (status s) (rdir s) (ack s) (registers s) (direction s)
          (USIDR s) (USISR s) (USICR s) (I2CD s) v.

(** ** Register file: byte and native multi-byte access *)

(** [i2c_slave.registers[i]] as an rvalue. *)
Definition load8 (regs : list Z) (i : Z) : result Z :=
  match regs !! Z.to_nat i with
  | Some b => Ok b
  | None => Err OutOfBounds
  end.

(** [i2c_slave.registers[i] = b]. *)
Definition store8 (regs : list Z) (i b : Z) : result (list Z) :=
  if (Z.to_nat i <? length regs)%nat then Ok (<[Z.to_nat i := b]> regs)
  else Err OutOfBounds.

(** Object representation: [n] bytes, least significant first. *)
Fixpoint le_bytes (n : nat) (x : Z) : list Z :=
  match n with
  | O => []
  | S n' => Z.land x 255 :: le_bytes n' (Z.shiftr x 8)
  end.

Fixpoint le_value (bs : list Z) : Z :=
  match bs with
  | [] => 0
  | b :: bs' => Z.lor b (Z.shiftl (le_value bs') 8)
  end.

(** [*(T * )(i2c_slave.registers + i) = x] for a [T] of [n] bytes. *)
Fixpoint store_bytes (regs : list Z) (i : Z) (bs : list Z) : result (list Z) :=
  match bs with
  | [] => Ok regs
  | b :: bs' => regs' ← store8 regs i b; store_bytes regs' (i + 1) bs'
  end.

Definition store_native (n : nat) (regs : list Z) (i x : Z) : result (list Z) :=
  store_bytes regs i (le_bytes n x).

(** [*(T * )(i2c_slave.registers + i)] as an rvalue of unsigned type. *)
Fixpoint load_bytes (n : nat) (regs : list Z) (i : Z) : result (list Z) :=
  match n with
  | O => Ok []
  | S n' => b ← load8 regs i; bs ← load_bytes n' regs (i + 1); Ok (b :: bs)
  end.

Definition load_native (n : nat) (regs : list Z) (i : Z) : result Z :=
  bs ← load_bytes n regs i; Ok (le_value bs).

(** ** Typed accessors

    Arguments are the C arguments after conversion to the parameter
    types: [dir] in [0, 256), [data] in the range of its type. *)

Definition save (n : nat) (x dir : Z) (s : state) : result state :=
  regs ← store_native n (registers s) dir x; Ok (set_registers regs s).

Definition usi_i2c_save_registers_u8 (data dir : Z) (s : state) : result state :=
  save 1 data dir s.

(** [uint16_t] is [unsigned int]: every operand is converted to it. *)
Definition swap_u16 (data : Z) : Z :=
  Z.lor (to_unsigned 16 (Z.shiftl (Z.land data 0xFF) 8))
        (Z.shiftr (Z.land data 0xFF00) 8).

Definition usi_i2c_save_registers_u16 (data dir : Z) (s : state) : result state :=
  save 2 (swap_u16 data) dir s.

(** [uint32_t] is [unsigned long]. *)
Definition swap_u32 (data : Z) : Z :=
  Z.lor
    (Z.lor
       (Z.lor (to_unsigned 32 (Z.shiftl (Z.land data 0x000000FF) 24))
              (Z.shiftr (Z.land data 0xFF000000) 24))
       (to_unsigned 32 (Z.shiftl (Z.land data 0x0000FF00) 8)))
    (Z.shiftr (Z.land data 0x00FF0000) 8).

Definition usi_i2c_save_registers_u32 (data dir : Z) (s : state) : result state :=
  save 4 (swap_u32 data) dir s.

Definition usi_i2c_save_registers_s8 (data dir : Z) (s : state) : result state :=
  save 1 data dir s.

(** [int16_t] is [int].  [data & 0xFF] is an [int]; its shift wraps as gcc
    defines it.  [0xFF00] does not fit [int] and has type [unsigned int],
    so [data] is converted to [unsigned int] in [data & 0xFF00], and so is
    the left operand of [|].  The result is converted back to [int16_t]. *)
Definition swap_s16 (data : Z) : Z :=
  to_signed 16
    (Z.lor (to_unsigned 16 (to_signed 16 (Z.shiftl (Z.land data 0xFF) 8)))
           (Z.shiftr (Z.land (to_unsigned 16 data) 0xFF00) 8)).

Definition usi_i2c_save_registers_s16 (data dir : Z) (s : state) : result state :=
  save 2 (swap_s16 data) dir s.

(** [int32_t] is [long].  [0x000000FF] is an [int], [0x0000FF00] an
    [unsigned int] and [0x00FF0000] a [long]: these three are converted to
    [long].  [0xFF000000] is an [unsigned long], so [data & 0xFF000000] is
    unsigned, and every [|] is carried out in [unsigned long]. *)
Definition swap_s32 (data : Z) : Z :=
  to_signed 32
    (Z.lor
       (Z.lor
          (Z.lor (to_unsigned 32 (to_signed 32 (Z.shiftl (Z.land data 0x000000FF) 24)))
                 (Z.shiftr (Z.land (to_unsigned 32 data) 0xFF000000) 24))
          (to_unsigned 32 (to_signed 32 (Z.shiftl (Z.land data 0x0000FF00) 8))))
       (to_unsigned 32 (Z.shiftr (Z.land data 0x00FF0000) 8))).

Definition usi_i2c_save_registers_s32 (data dir : Z) (s : state) : result state :=
  save 4 (swap_s32 data) dir s.

Definition usi_i2c_read_registers_u8 (dir : Z) (s : state) : result Z :=
  load_native 1 (registers s) dir.
Definition usi_i2c_read_registers_u16 (dir : Z) (s : state) : result Z :=
  load_native 2 (registers s) dir.
Definition usi_i2c_read_registers_u32 (dir : Z) (s : state) : result Z :=
  load_native 4 (registers s) dir.
Definition usi_i2c_read_registers_s8 (dir : Z) (s : state) : result Z :=
  x ← load_native 1 (registers s) dir; Ok (to_signed 8 x).
Definition usi_i2c_read_registers_s16 (dir : Z) (s : state) : result Z :=
  x ← load_native 2 (registers s) dir; Ok (to_signed 16 x).
Definition usi_i2c_read_registers_s32 (dir : Z) (s : state) : result Z :=
  x ← load_native 4 (registers s) dir; Ok (to_signed 32 x).

(** ** Protocol engine

    The header of the repository defines the bus pins; their bit numbers
    [SDAP] and [SCLP] within the port are parameters here. *)

Section Engine.

Variables SDAP SCLP : Z.

(** The four counter bits of USISR. *)
Definition USICNT : Z :=
  Z.lor (Z.lor (Z.lor (bv USICNT3) (bv USICNT2)) (bv USICNT1)) (bv USICNT0).

(** The content of USISR after a write of [v] over [old], as the datasheet
    of the device defines it: the counter takes the low four bits; a one
    written to USISIF, USIOIF or USIPF clears that flag and a zero leaves
    it; USIDC is read-only. *)
Definition USISR_written (v old : Z) : Z :=
  Z.lor (Z.land old (Z.land 0xF0 (Z.lnot (Z.land v 0xE0)))) (Z.land v 0x0F).

Definition write_USISR (v : Z) (s : state) : state :=
  set_USISR (USISR_written v (USISR s)) s.

(** [ISR(USI_START_vect)] *)
Definition USI_START_vect (s : state) : state :=
  let s := set_I2CD (Z.lor (I2CD s) (bv SCLP)) s in
  let s :=
    if status s =? 2 then set_status 0 s
    else
      let s := set_USICR (Z.lor (USICR s) (bv USIOIE)) s in
      set_USIDR 0 s in
  let s := write_USISR (u8 (Z.lnot USICNT)) s in
  set_I2CD (Z.land (I2CD s) (Z.lnot (bv SCLP))) s.

(** [loop_until_bit_is_clear(sfr, n)] over the successive values the
    register shows. *)
Fixpoint loop_until_bit_is_clear (samples : list Z) (n : Z) : result unit :=
  match samples with
  | [] => Err BusHung
  | sfr :: later =>
      if bit_is_clear sfr n then Ok tt else loop_until_bit_is_clear later n
  end.

(** [if(status == 5) { ... }] of the ACK mode.  [I2CPN] lists the values
    that successive reads of the pin register return. *)
Definition ovf_master_ack (I2CPN : list Z) (s : state) : result state :=
  if status s =? 5 then
    match I2CPN with
    | [] => Err BusHung
    | pins :: later =>
        if bit_is_clear pins SDAP then
          let s := set_status 4 s in
          let s := set_I2CD (Z.lor (I2CD s) (bv SDAP)) s in
          let s := set_rdir (u8 (rdir s + 1)) s in
          _ ← loop_until_bit_is_clear later SCLP;
          Ok s
        else
          _ ← loop_until_bit_is_clear later SCLP;
          let s := set_status 0 s in
          let s := set_rdir 0 s in
          let s := set_I2CP (Z.land (I2CP s) (Z.lnot (bv SDAP))) s in
          let s := set_I2CD (Z.land (I2CD s) (Z.lnot (bv SDAP))) s in
          Ok (set_USICR (Z.land (USICR s) (Z.lnot (bv USIOIE))) s)
    end
  else Ok s.

(** [if(status == 3) {...} else if (status == 4) {...} else {...}] of the
    ACK mode. *)
Definition ovf_after_ack (s : state) : result state :=
  if status s =? 3 then
    let s := set_I2CD (Z.lor (I2CD s) (bv SCLP)) s in
    let s :=
      if bit_is_set (USISR s) USIPF then
        let s := set_rdir 0 s in
        let s := set_status 0 s in
        set_USICR (Z.land (USICR s) (Z.lnot (bv USIOIE))) s
      else
        let s := set_status 2 s in
        set_rdir (u8 (rdir s + 1)) s in
    Ok (set_I2CD (Z.land (I2CD s) (Z.lnot (bv SDAP))) s)
  else if status s =? 4 then
    let s := set_I2CD (Z.lor (I2CD s) (bv SCLP)) s in
    b ← load8 (registers s) (rdir s);
    let s := set_USIDR b s in
    Ok (set_I2CP (Z.lor (I2CP s) (bv SDAP)) s)
  else
    let s := set_I2CD (Z.lor (I2CD s) (bv SCLP)) s in
    Ok (set_I2CD (Z.land (I2CD s) (Z.lnot (bv SDAP))) s).

(** The [if(status == 0) ... else if(status == 4)] chain of the byte
    mode. *)
Definition ovf_byte (s : state) : result state :=
  if status s =? 0 then
    let wrrd := Z.land (USIDR s) 0x1 in
    let dire := Z.shiftr (USIDR s) 1 in
    if dire =? direction s then
      let s :=
        if wrrd =? 1 then set_status 4 s
        else set_status (u8 (status s + 1)) s in
      let s := set_I2CD (Z.lor (I2CD s) (bv SDAP)) s in
      Ok (set_ack 1 s)
    else Ok s
  else if status s =? 1 then
    let s := set_rdir (USIDR s) s in
    let s := set_I2CD (Z.lor (I2CD s) (bv SDAP)) s in
    let s := set_ack 1 s in
    Ok (set_status (u8 (status s + 1)) s)
  else if status s =? 2 then
    regs ← store8 (registers s) (rdir s) (USIDR s);
    let s := set_registers regs s in
    let s := set_I2CD (Z.lor (I2CD s) (bv SDAP)) s in
    let s := set_ack 1 s in
    Ok (set_status (u8 (status s + 1)) s)
  else if status s =? 4 then
    let s := write_USISR (Z.lor (USISR s) (bv USICNT0)) s in
    let s := set_I2CD (Z.land (I2CD s) (Z.lnot (bv SDAP))) s in
    let s := set_ack 1 s in
    Ok (set_status (u8 (status s + 1)) s)
  else Ok s.

(** [ISR(USI_OVF_vect)] *)
Definition USI_OVF_vect (I2CPN : list Z) (s : state) : result state :=
  s ← (if negb (ack s =? 0) then
         s ← ovf_master_ack I2CPN s;
         s ← ovf_after_ack s;
         let s := set_ack 0 s in
         Ok (write_USISR (u8 (Z.lnot USICNT)) s)
       else
         let s := set_I2CD (Z.lor (I2CD s) (bv SCLP)) s in
         let s :=
           write_USISR (u8 (Z.land (Z.lnot (USISR s)) (Z.lnot USICNT))) s in
         s ← ovf_byte s;
         let s :=
           if negb (ack s =? 0) then
             write_USISR
               (Z.lor (USISR s)
                      (Z.lor (Z.lor (bv USICNT3) (bv USICNT2)) (bv USICNT1))) s
           else s in
         let s := set_USIDR 0 s in
         Ok (write_USISR (Z.lor (USISR s) (Z.lor (bv USIOIF) (bv USISIF))) s));
  Ok (set_I2CD (Z.land (I2CD s) (Z.lnot (bv SCLP))) s).

(** [usi_i2c_slave(dir)]; [sei()] touches nothing of the state. *)
Definition usi_i2c_slave (dir : Z) (s : state) : state :=
  let s := set_I2CP (Z.land (I2CP s) (Z.lnot (Z.lor (bv SDAP) (bv SCLP)))) s in
  let s := set_I2CD (Z.land (I2CD s) (Z.lnot (Z.lor (bv SDAP) (bv SCLP)))) s in
  let s := set_USICR (Z.lor (Z.lor (bv USISIE) (bv USIWM1)) (bv USICS1)) s in
  let s :=
    write_USISR
      (Z.lor (Z.lor (Z.lor (bv USISIF) (bv USIOIF)) (bv USIPF)) (bv USIDC)) s in
  set_direction dir s.

(** ** The bus as a sequence of events

    What the USI hardware does between two runs of the handlers: it
    raises a flag in USISR and, when the matching interrupt is enabled in
    USICR, the handler runs.  At a counter overflow the data register
    holds the bits clocked in since the handler last wrote it. *)

Inductive event : Type :=
| START                          (* start condition *)
| STOP                           (* stop condition *)
| OVF (dr : Z) (I2CPN : list Z). (* counter overflow with USIDR = dr *)

Definition raise_flag (n : Z) (s : state) : state :=
  set_USISR (Z.lor (USISR s) (bv n)) s.

(** The byte that a run of the overflow handler left in the data register
    for transmission: the branch [USIDR = i2c_slave.registers[rdir]] is
    the one taken in ACK mode that ends with [status == 4]. *)
Definition loaded (before after : state) : list Z :=
  if negb (ack before =? 0) && (status after =? 4) then [USIDR after] else [].

(** The USI at a counter overflow: the counter is back at zero, the
    overflow flag is raised and the data register holds [dr]. *)
Definition overflowed (dr : Z) (s : state) : state :=
  let s := set_USISR (Z.land (USISR s) 0xF0) s in
  let s := raise_flag USIOIF s in
  set_USIDR dr s.

Definition deliver (e : event) (s : state) : result (state * list Z) :=
  match e with
  | START =>
      let s := raise_flag USISIF s in
      if bit_is_set (USICR s) USISIE then Ok (USI_START_vect s, [])
      else Ok (s, [])
  | STOP => Ok (raise_flag USIPF s, [])
  | OVF dr I2CPN =>
      let s := overflowed dr s in
      if bit_is_set (USICR s) USIOIE then
        s' ← USI_OVF_vect I2CPN s; Ok (s', loaded s s')
      else Ok (s, [])
  end.

(** Runs the events in order; the second component lists the bytes
    loaded for transmission. *)
Fixpoint run (es : list event) (s : state) : result (state * list Z) :=
  match es with
  | [] => Ok (s, [])
  | e :: es' =>
      '(s1, out1) ← deliver e s;
      '(s2, out2) ← run es' s1;
      Ok (s2, out1 ++ out2)
  end.

(** ** Bus transactions *)

(** The master's level on SDA at the ninth clock, and SCL low afterwards. *)
Definition acked (I2CPN : list Z) : Prop :=
  exists pins later,
    I2CPN = pins :: later /\ bit_is_clear pins SDAP = true /\
    loop_until_bit_is_clear later SCLP = Ok tt.

Definition nacked (I2CPN : list Z) : Prop :=
  exists pins later,
    I2CPN = pins :: later /\ bit_is_clear pins SDAP = false /\
    loop_until_bit_is_clear later SCLP = Ok tt.

(** Eight bits from the master, then the ninth clock.  The handler reads
    neither USIDR nor the pins at the ninth clock of a received byte. *)
Definition byte_in (b : Z) : list event := [OVF b []; OVF 0 []].

(** Eight bits to the master, then the ninth clock with the master's
    answer on the pins. *)
Definition byte_out (I2CPN : list Z) : list event := [OVF 0 []; OVF 0 I2CPN].

(** START, address byte [a] (R/W = 0), pointer byte [P], data bytes. *)
Definition write_events (a P : Z) (data : list Z) : list event :=
  START :: byte_in a ++ byte_in P ++ flat_map byte_in data.

(** START, address byte [a] (R/W = 1); the first byte is loaded at the
    ninth clock of the address, one more after each ACK of the master. *)
Definition read_events (a : Z) (acks : list (list Z)) : list event :=
  START :: byte_in a ++ flat_map byte_out acks.

(** An event other than START. *)
Definition not_start (e : event) : Prop :=
  match e with
  | START => False
  | _ => True
  end.

End Engine.

(** ** Views of the state used in the statements *)

Definition oie (s : state) : bool := Z.testbit (USICR s) USIOIE.
Definition sie (s : state) : bool := Z.testbit (USICR s) USISIE.
Definition stopf (s : state) : bool := Z.testbit (USISR s) USIPF.

(** The engine between two events of a transaction in progress. *)
Record phase (st rd ak : Z) (regs : list Z) (dir : Z) (s : state) : Prop := {
  ph_status : status s = st;
  ph_rdir : rdir s = rd;
  ph_ack : ack s = ak;
  ph_registers : registers s = regs;
  ph_direction : direction s = dir;
  ph_oie : oie s = true;
  ph_sie : sie s = true;
  ph_stopf : stopf s = false
}.

(** The engine between two transactions: after initialisation, after a
    NACK or a handled stop flag ([status == 0]), or after a write whose
    last ACK clock was handled ([status == 2]). *)
Definition ready (s : state) : Prop :=
  ack s = 0 /\ sie s = true /\
  (status s = 0 \/ (status s = 2 /\ oie s = true)).

(** The register file after the bytes [data] were stored from pointer
    [r] on, the pointer wrapping as a [uint8_t]. *)
Fixpoint stored (r : Z) (data : list Z) (regs : list Z) : list Z :=
  match data with
  | [] => regs
  | d :: data' => stored (u8 (r + 1)) data' (<[Z.to_nat r := d]> regs)
  end.

(** The [n] bytes of the register file from pointer [r] on. *)
Fixpoint window (regs : list Z) (r : Z) (n : nat) : list Z :=
  match n with
  | O => []
  | S n' => default 0 (regs !! Z.to_nat r) :: window regs (u8 (r + 1)) n'
  end.

(** ** Concrete configuration for the examples

    SDA on bit 0 and SCL on bit 2 of the port (ATtiny45), a register file
    of 256 zero bytes, slave address 0x20. *)

Definition power_on : state :=
  mkState 0 0 0 (replicate 256 0) 0 0 0 0 0 0.

Definition example_slave : state := usi_i2c_slave 0 2 0x20 power_on.

(** The same, with register [i] holding [i]. *)
Definition numbered : state :=
  usi_i2c_slave 0 2 0x20 (set_registers (map Z.of_nat (seq 0 256)) power_on).

(** Pin readings at and after the ninth clock of a transmitted byte: SDA
    low, then SCL low (ACK); SDA high, then SCL low (NACK). *)
Definition ACK : list Z := [0; 0].
Definition NACK : list Z := [1; 0].

(** The state in which the stop flag is seen: the stop condition comes
    between the data byte and its ninth clock. *)
Definition stop_seen : state :=
  match run 0 2 (START :: byte_in 0x40 ++ byte_in 3 ++ [OVF 0xAB []; STOP]) numbered with
  | Ok (s, _) => overflowed 0 s
  | Err _ => numbered
  end.

(** The state in which the pointer is at 255 after a stored byte. *)
Definition at_last_register : state :=
  match run 0 2 (START :: byte_in 0x40 ++ byte_in 255 ++ [OVF 0xAB []]) numbered with
  | Ok (s, _) => overflowed 0 s
  | Err _ => numbered
  end.

(** ** Ranges of the protocol variables *)

(** The six states of the engine, the ACK flag as a truth value and the
    pointer as a byte. *)
Definition well_formed (s : state) : Prop :=
  0 <= status s <= 5 /\ (ack s = 0 \/ ack s = 1) /\ 0 <= rdir s < 256.

(** An event whose data register content is a byte. *)
Definition byte_event (e : event) : Prop :=
  match e with
  | OVF dr _ => 0 <= dr < 256
  | _ => True
  end.

(** ** Further example states *)

(** The example slave with a register file of sixteen bytes. *)
Definition small_slave : state :=
  usi_i2c_slave 0 2 0x20 (set_registers (map Z.of_nat (seq 0 16)) power_on).

(** The example slave when the eight bits of a byte have been clocked
    in after a start condition. *)
Definition address_received (a : Z) : state :=
  match run 0 2 [START] numbered with
  | Ok (s, _) => overflowed a s
  | Err _ => numbered
  end.

(** The example slave at the ninth clock of a pointer byte. *)
Definition pointer_acknowledged : state :=
  match run 0 2 [START; OVF 0x40 []; OVF 0 []; OVF 3 []] numbered with
  | Ok (s, _) => overflowed 0 s
  | Err _ => numbered
  end.

(** The example slave when the eight bits of a data byte have been clocked
    in after the pointer byte 3. *)
Definition expecting_data : state :=
  match run 0 2 (write_events 0x40 3 []) numbered with
  | Ok (s, _) => s
  | Err _ => numbered
  end.


(** The state that an event leaves in the example configuration. *)
Definition after_event (e : event) (s : state) : state :=
  match deliver 0 2 e s with
  | Ok (s', _) => s'
  | Err _ => s
  end.

(** * Properties *)

(** ** Bit-level facts *)

Ltac decide_ltb :=
  repeat match goal with
  | |- context [?a <? ?b] =>
      first [ rewrite (proj2 (Z.ltb_lt a b)) by lia
            | rewrite (proj2 (Z.ltb_ge a b)) by lia ]
  | |- context [?a <=? ?b] =>
      first [ rewrite (proj2 (Z.leb_le a b)) by lia
            | rewrite (proj2 (Z.leb_gt a b)) by lia ]
  end.

Ltac bits_spec :=
  repeat first
    [ rewrite Z.land_spec | rewrite Z.lor_spec
    | rewrite Z.shiftl_spec by lia | rewrite Z.shiftr_spec by lia
    | rewrite Z.testbit_mod_pow2 by lia
    | rewrite Z.testbit_ones by lia ].

Ltac same_bit :=
  repeat rewrite ?andb_true_r, ?andb_false_r, ?orb_false_r, ?orb_false_l,
    ?andb_true_l, ?andb_false_l, ?orb_true_r, ?orb_true_l;
  try reflexivity;
  try (f_equal; lia).

(** Equality of two integers through their bits, split at bit [k]. *)
Ltac by_bits k :=
  apply Z.bits_inj'; intros ?i ?Hi;
  match goal with
  | i : Z |- _ =>
      destruct (Z.ltb_spec i k); bits_spec; decide_ltb; same_bit
  end.

Lemma to_signed_mod w x : 0 < w -> to_signed w x mod 2 ^ w = x mod 2 ^ w.
Proof.
  intros Hw. unfold to_signed.
  rewrite Zminus_mod_idemp_l. f_equal. lia.
Qed.

Lemma to_unsigned_signed w x :
  0 < w -> to_unsigned w (to_signed w x) = to_unsigned w x.
Proof. intros Hw. unfold to_unsigned. now apply to_signed_mod. Qed.

Lemma to_unsigned_small w x : 0 <= x < 2 ^ w -> to_unsigned w x = x.
Proof. intros Hx. unfold to_unsigned. now apply Z.mod_small. Qed.

Lemma land_ones_mask w m : 0 <= w -> 0 <= m < 2 ^ w -> Z.land (Z.ones w) m = m.
Proof.
  intros Hw Hm. rewrite Z.land_comm, Z.land_ones by lia.
  now apply Z.mod_small.
Qed.

(** A mask that fits [w] bits sees the same bits before and after the
    conversion to a [w]-bit unsigned type. *)
Lemma land_to_unsigned w m x :
  0 <= w -> 0 <= m < 2 ^ w -> Z.land (to_unsigned w x) m = Z.land x m.
Proof.
  intros Hw Hm. unfold to_unsigned.
  rewrite <- Z.land_ones by lia.
  rewrite <- Z.land_assoc. now rewrite land_ones_mask.
Qed.

Lemma shiftr_mod_pow2 x k :
  0 <= k -> Z.shiftr (x mod 2 ^ (8 + k)) 8 = Z.shiftr x 8 mod 2 ^ k.
Proof.
  intros Hk. apply Z.bits_inj'. intros i Hi.
  bits_spec.
  destruct (Z.ltb_spec i k); decide_ltb; same_bit.
Qed.

Lemma le_bytes_mod n : forall x,
  le_bytes n (x mod 2 ^ (8 * Z.of_nat n)) = le_bytes n x.
Proof.
  induction n as [|n IH]; intros x; [reflexivity|].
  cbn [le_bytes].
  replace (8 * Z.of_nat (S n)) with (8 + 8 * Z.of_nat n) by lia.
  rewrite shiftr_mod_pow2 by lia. rewrite IH. f_equal.
  change (Z.land (to_unsigned (8 + 8 * Z.of_nat n) x) 255 = Z.land x 255).
  apply land_to_unsigned; [lia|].
  split; [lia|].
  apply Z.lt_le_trans with (2 ^ 8); [reflexivity|].
  apply Z.pow_le_mono_r; lia.
Qed.

Lemma le_bytes_to_signed16 x : le_bytes 2 (to_signed 16 x) = le_bytes 2 x.
Proof.
  rewrite <- (le_bytes_mod 2 (to_signed 16 x)), <- (le_bytes_mod 2 x).
  f_equal. now apply to_signed_mod.
Qed.

Lemma le_bytes_to_signed32 x : le_bytes 4 (to_signed 32 x) = le_bytes 4 x.
Proof.
  rewrite <- (le_bytes_mod 4 (to_signed 32 x)), <- (le_bytes_mod 4 x).
  f_equal. now apply to_signed_mod.
Qed.

Lemma land_nonneg_bound x m : 0 <= m -> 0 <= Z.land x m <= m.
Proof.
  intros Hm. split.
  - apply Z.land_nonneg. now right.
  - apply Z.ldiff_le; [lia|].
    apply Z.bits_inj'. intros i Hi.
    rewrite Z.ldiff_spec, Z.land_spec, Z.bits_0.
    destruct (Z.testbit x i), (Z.testbit m i); reflexivity.
Qed.

(** ** Signed and unsigned writers *)

Lemma swap_s16_pattern data :
  le_bytes 2 (swap_s16 data) = le_bytes 2 (swap_u16 (to_unsigned 16 data)).
Proof.
  unfold swap_s16, swap_u16.
  rewrite le_bytes_to_signed16, to_unsigned_signed by lia.
  now rewrite (land_to_unsigned 16 0xFF) by lia.
Qed.

Lemma swap_s32_pattern data :
  le_bytes 4 (swap_s32 data) = le_bytes 4 (swap_u32 (to_unsigned 32 data)).
Proof.
  unfold swap_s32, swap_u32.
  rewrite le_bytes_to_signed32, !to_unsigned_signed by lia.
  rewrite (land_to_unsigned 32 0xFF), (land_to_unsigned 32 0xFF00),
    (land_to_unsigned 32 0xFF0000) by lia.
  rewrite (to_unsigned_small 32 (Z.shiftr (Z.land data 0xFF0000) 8));
    [reflexivity|].
  pose proof (land_nonneg_bound data 0xFF0000 ltac:(lia)) as Hb.
  rewrite Z.shiftr_div_pow2 by lia.
  split; [apply Z.div_pos; lia|].
  apply Z.div_lt_upper_bound; lia.
Qed.

(** C10: for every index [dir] and every [data], the signed 16-bit
    (resp. 32-bit) save accessor has exactly the effect of the unsigned
    accessor of the same width applied to the two's-complement bit pattern
    of [data]: the same bytes reach the register file, and the same
    accesses are out of bounds. *)
Theorem signed_save_same_bytes (data dir : Z) (s : state) :
  usi_i2c_save_registers_s16 data dir s
  = usi_i2c_save_registers_u16 (to_unsigned 16 data) dir s
  /\ usi_i2c_save_registers_s32 data dir s
     = usi_i2c_save_registers_u32 (to_unsigned 32 data) dir s.
Proof.
  unfold usi_i2c_save_registers_s16, usi_i2c_save_registers_u16,
    usi_i2c_save_registers_s32, usi_i2c_save_registers_u32, save, store_native.
  now rewrite swap_s16_pattern, swap_s32_pattern.
Qed.

(** ** Native access to the register file *)

Lemma store8_inv regs i b regs' :
  store8 regs i b = Ok regs' ->
  (Z.to_nat i < length regs)%nat /\ regs' = <[Z.to_nat i := b]> regs.
Proof.
  unfold store8. destruct (Nat.ltb_spec (Z.to_nat i) (length regs)).
  - intros [= <-]. now split.
  - discriminate.
Qed.

Lemma store8_ok regs i b :
  (Z.to_nat i < length regs)%nat ->
  store8 regs i b = Ok (<[Z.to_nat i := b]> regs).
Proof.
  intros H. unfold store8.
  destruct (Nat.ltb_spec (Z.to_nat i) (length regs)); [reflexivity|lia].
Qed.

Lemma load8_ok regs i b : regs !! Z.to_nat i = Some b -> load8 regs i = Ok b.
Proof. intros H. unfold load8. now rewrite H. Qed.

Lemma store_bytes_ok bs : forall regs i,
  0 <= i -> (Z.to_nat i + length bs <= length regs)%nat ->
  exists regs', store_bytes regs i bs = Ok regs'.
Proof.
  induction bs as [|b bs IH]; intros regs i Hi Hlen; cbn [store_bytes].
  - now exists regs.
  - cbn [length] in Hlen. rewrite store8_ok by lia. cbn [mbind result_bind].
    apply IH; [lia|]. rewrite length_insert. lia.
Qed.

Lemma store_bytes_spec bs : forall regs i regs',
  0 <= i -> store_bytes regs i bs = Ok regs' ->
  length regs' = length regs /\
  (forall j, (j < length bs)%nat -> regs' !! (Z.to_nat i + j)%nat = bs !! j) /\
  (forall j, (j < Z.to_nat i)%nat \/ (Z.to_nat i + length bs <= j)%nat ->
             regs' !! j = regs !! j).
Proof.
  induction bs as [|b bs IH]; intros regs i regs' Hi; cbn [store_bytes].
  - intros [= <-]. split; [reflexivity|]. split; [|reflexivity].
    intros j Hj. cbn in Hj. lia.
  - destruct (store8 regs i b) as [r1|] eqn:H1; [|discriminate].
    cbn [mbind result_bind]. intros H2.
    apply store8_inv in H1 as [Hlt ->].
    apply IH in H2 as (Hlen & Hin & Hout); [|lia].
    rewrite length_insert in Hlen.
    replace (Z.to_nat (i + 1)) with (S (Z.to_nat i)) in * by lia.
    split; [assumption|]. split.
    + intros [|j] Hj.
      * rewrite Nat.add_0_r, Hout by lia.
        now rewrite list_lookup_insert_eq.
      * cbn [length] in Hj. change ((b :: bs) !! S j) with (bs !! j).
        rewrite <- (Hin j) by lia. f_equal. lia.
    + intros j Hj. cbn [length] in Hj.
      rewrite Hout by lia. apply list_lookup_insert_ne. lia.
Qed.

Lemma load_bytes_ok bs : forall regs i,
  0 <= i ->
  (forall j, (j < length bs)%nat -> regs !! (Z.to_nat i + j)%nat = bs !! j) ->
  load_bytes (length bs) regs i = Ok bs.
Proof.
  induction bs as [|b bs IH]; intros regs i Hi H; [reflexivity|].
  cbn [length load_bytes].
  rewrite (load8_ok regs i b).
  2:{ rewrite <- (Nat.add_0_r (Z.to_nat i)). apply (H 0%nat). cbn. lia. }
  cbn [mbind result_bind]. rewrite IH; [reflexivity|lia|].
  intros j Hj. replace (Z.to_nat (i + 1) + j)%nat with (Z.to_nat i + S j)%nat by lia.
  apply (H (S j)). cbn. lia.
Qed.

Lemma length_le_bytes n : forall x, length (le_bytes n x) = n.
Proof. induction n as [|n IH]; intros x; cbn; [reflexivity|now rewrite IH]. Qed.

Lemma le_value_le_bytes n : forall x,
  le_value (le_bytes n x) = x mod 2 ^ (8 * Z.of_nat n).
Proof.
  induction n as [|n IH]; intros x.
  - cbn. now rewrite Z.mod_1_r.
  - cbn [le_bytes le_value]. rewrite IH.
    replace (8 * Z.of_nat (S n)) with (8 + 8 * Z.of_nat n) by lia.
    change 255 with (Z.ones 8).
    apply Z.bits_inj'. intros i Hi.
    destruct (Z.ltb_spec i 8).
    + bits_spec. decide_ltb. same_bit.
      rewrite (Z.testbit_neg_r _ (i - 8)) by lia. same_bit.
    + bits_spec. decide_ltb. same_bit.
      replace (i - 8 + 8) with i by lia.
      destruct (Z.ltb_spec i (8 + 8 * Z.of_nat n)); decide_ltb; same_bit.
Qed.

(** A native read after a native write of the same width returns the
    stored bit pattern. *)
Lemma load_after_store n regs i x regs' :
  0 <= i -> store_native n regs i x = Ok regs' ->
  load_native n regs' i = Ok (x mod 2 ^ (8 * Z.of_nat n)).
Proof.
  intros Hi Hst. unfold store_native in Hst.
  apply store_bytes_spec in Hst as (_ & Hin & _); [|assumption].
  unfold load_native.
  rewrite <- (length_le_bytes n x) at 1.
  rewrite load_bytes_ok by assumption.
  cbn [mbind result_bind]. now rewrite le_value_le_bytes.
Qed.

(** ** Typed accessors *)

Lemma save_ok n x dir s :
  0 <= dir -> (Z.to_nat dir + n <= length (registers s))%nat ->
  exists s', save n x dir s = Ok s' /\
    (forall j, (j < n)%nat ->
       registers s' !! (Z.to_nat dir + j)%nat = le_bytes n x !! j) /\
    load_native n (registers s') dir = Ok (x mod 2 ^ (8 * Z.of_nat n)).
Proof.
  intros Hdir Hlen. unfold save.
  destruct (store_bytes_ok (le_bytes n x) (registers s) dir Hdir) as [regs' Hst].
  { now rewrite length_le_bytes. }
  unfold store_native at 1. rewrite Hst. cbn [mbind result_bind].
  eexists. split; [reflexivity|]. cbn [registers set_registers]. split.
  - intros j Hj. apply store_bytes_spec in Hst as (_ & Hin & _); [|assumption].
    apply Hin. now rewrite length_le_bytes.
  - now apply load_after_store with (regs := registers s).
Qed.

Lemma swap_u16_bytes data :
  le_bytes 2 (swap_u16 data) = [byte_of data 1; byte_of data 0].
Proof.
  unfold swap_u16, to_unsigned, byte_of. cbn [le_bytes].
  change 255 with (Z.ones 8). change 0xFF00 with (Z.shiftl (Z.ones 8) 8).
  f_equal; [|f_equal].
  - by_bits 8.
  - by_bits 8.
Qed.

Lemma swap_u16_range data : swap_u16 data mod 2 ^ 16 = swap_u16 data.
Proof.
  unfold swap_u16, to_unsigned.
  change 255 with (Z.ones 8). change 0xFF00 with (Z.shiftl (Z.ones 8) 8).
  apply Z.bits_inj'. intros i Hi.
  destruct (Z.ltb_spec i 8); [|destruct (Z.ltb_spec i 16)];
    bits_spec; decide_ltb; same_bit.
Qed.

(** The 16-bit unsigned save accessor leaves the most significant byte
    at [dir] and the least significant byte at [dir + 1]; the read
    accessor then returns these two bytes in the native order. *)
Lemma read_u16_after_save_u16 data dir s :
  0 <= dir -> (Z.to_nat dir + 2 <= length (registers s))%nat ->
  exists s', usi_i2c_save_registers_u16 data dir s = Ok s' /\
    registers s' !! Z.to_nat dir = Some (byte_of data 1) /\
    registers s' !! (Z.to_nat dir + 1)%nat = Some (byte_of data 0) /\
    usi_i2c_read_registers_u16 dir s' = Ok (swap_u16 data).
Proof.
  intros Hdir Hlen. unfold usi_i2c_save_registers_u16, usi_i2c_read_registers_u16.
  destruct (save_ok 2 (swap_u16 data) dir s Hdir Hlen) as (s' & Hs & Hb & Hl).
  exists s'. split; [assumption|].
  rewrite swap_u16_bytes in Hb. repeat split.
  - rewrite <- (Nat.add_0_r (Z.to_nat dir)). apply (Hb 0%nat). lia.
  - apply (Hb 1%nat). lia.
  - rewrite Hl. f_equal. apply swap_u16_range.
Qed.

(** The 8-bit accessors return what was saved. *)
Lemma read_u8_after_save_u8 data dir s :
  0 <= data < 2 ^ 8 -> 0 <= dir -> (Z.to_nat dir < length (registers s))%nat ->
  exists s', usi_i2c_save_registers_u8 data dir s = Ok s' /\
    usi_i2c_read_registers_u8 dir s' = Ok data.
Proof.
  intros Hd Hdir Hlen. unfold usi_i2c_save_registers_u8, usi_i2c_read_registers_u8.
  destruct (save_ok 1 data dir s Hdir) as (s' & Hs & _ & Hl); [lia|].
  exists s'. split; [assumption|]. rewrite Hl. f_equal.
  now apply Z.mod_small.
Qed.

Lemma read_s8_after_save_s8 data dir s :
  - 2 ^ 7 <= data < 2 ^ 7 -> 0 <= dir ->
  (Z.to_nat dir < length (registers s))%nat ->
  exists s', usi_i2c_save_registers_s8 data dir s = Ok s' /\
    usi_i2c_read_registers_s8 dir s' = Ok data.
Proof.
  intros Hd Hdir Hlen. unfold usi_i2c_save_registers_s8, usi_i2c_read_registers_s8.
  destruct (save_ok 1 data dir s Hdir) as (s' & Hs & _ & Hl); [lia|].
  exists s'. split; [assumption|]. rewrite Hl. cbn [mbind result_bind].
  f_equal. unfold to_signed. change (8 * Z.of_nat 1) with 8.
  rewrite Zplus_mod_idemp_l. rewrite Z.mod_small; lia.
Qed.

(** C1: at the claim's own example the 16-bit save accessor leaves the
    raw bytes 0x12, 0x34 at indices 5 and 6, and the read accessor returns
    0x3412 from them, not the saved 0x1234.  The 32-bit and the signed
    accessors behave alike; the 8-bit accessors return what was saved. *)
Theorem typed_read_after_save_example :
  (exists s',
     usi_i2c_save_registers_u16 0x1234 5 power_on = Ok s' /\
     registers s' !! 5%nat = Some 0x12 /\
     registers s' !! 6%nat = Some 0x34 /\
     usi_i2c_read_registers_u16 5 s' = Ok 0x3412 /\
     usi_i2c_read_registers_u16 5 s' <> Ok 0x1234) /\
  (exists s',
     usi_i2c_save_registers_u32 0x12345678 5 power_on = Ok s' /\
     take 4 (drop 5 (registers s')) = [0x12; 0x34; 0x56; 0x78] /\
     usi_i2c_read_registers_u32 5 s' = Ok 0x78563412) /\
  (exists s',
     usi_i2c_save_registers_s16 (-2) 5 power_on = Ok s' /\
     take 2 (drop 5 (registers s')) = [0xFF; 0xFE] /\
     usi_i2c_read_registers_s16 5 s' = Ok (-257)) /\
  (exists s',
     usi_i2c_save_registers_s32 (-2) 5 power_on = Ok s' /\
     take 4 (drop 5 (registers s')) = [0xFF; 0xFF; 0xFF; 0xFE] /\
     usi_i2c_read_registers_s32 5 s' = Ok (-16777217)) /\
  (exists s',
     usi_i2c_save_registers_u8 0xAB 5 power_on = Ok s' /\
     usi_i2c_read_registers_u8 5 s' = Ok 0xAB).
Proof.
  split; [|repeat split].
  - destruct (read_u16_after_save_u16 0x1234 5 power_on)
      as (s' & Hs & H5 & H6 & Hr).
    + lia.
    + vm_compute. lia.
    + exists s'. split; [assumption|].
      split; [exact H5|]. split; [exact H6|].
      rewrite Hr. split; [reflexivity|]. intros [= H].
  - eexists. split; [vm_compute; reflexivity|]. split; reflexivity.
  - eexists. split; [vm_compute; reflexivity|]. split; reflexivity.
  - eexists. split; [vm_compute; reflexivity|]. split; reflexivity.
  - eexists. split; [vm_compute; reflexivity|]. reflexivity.
Qed.

(** ** Flags and interrupt enables *)

Lemma USISR_written_PF v old :
  Z.testbit (USISR_written v old) USIPF
  = Z.testbit old USIPF && negb (Z.testbit v USIPF).
Proof.
  unfold USISR_written, USIPF.
  rewrite Z.lor_spec, !Z.land_spec, Z.lnot_spec, Z.land_spec by lia.
  change (Z.testbit 240 5) with true. change (Z.testbit 224 5) with true.
  change (Z.testbit 15 5) with false.
  now rewrite !andb_true_r, andb_false_r, orb_false_r.
Qed.

(** Writing back what was read, with more bits set, clears the stop flag. *)
Lemma rmw_clears_PF old m :
  Z.testbit (USISR_written (Z.lor old m) old) USIPF = false.
Proof.
  rewrite USISR_written_PF, Z.lor_spec.
  now destruct (Z.testbit old USIPF).
Qed.

Lemma clear_flags_PF old :
  Z.testbit (USISR_written (u8 (Z.lnot USICNT)) old) USIPF = false.
Proof.
  rewrite USISR_written_PF.
  change (Z.testbit (u8 (Z.lnot USICNT)) USIPF) with true.
  apply andb_false_r.
Qed.

Lemma overflow_keeps_PF sr :
  Z.testbit (Z.lor (Z.land sr 0xF0) (bv USIOIF)) USIPF = Z.testbit sr USIPF.
Proof.
  unfold USIPF. rewrite Z.lor_spec, Z.land_spec.
  change (Z.testbit 240 5) with true. change (Z.testbit (bv USIOIF) 5) with false.
  now rewrite andb_true_r, orb_false_r.
Qed.

Lemma enable_sets_OIE cr : Z.testbit (Z.lor cr (bv USIOIE)) USIOIE = true.
Proof.
  rewrite Z.lor_spec. change (Z.testbit (bv USIOIE) USIOIE) with true.
  apply orb_true_r.
Qed.

Lemma enable_keeps_SIE cr :
  Z.testbit (Z.lor cr (bv USIOIE)) USISIE = Z.testbit cr USISIE.
Proof.
  rewrite Z.lor_spec. change (Z.testbit (bv USIOIE) USISIE) with false.
  apply orb_false_r.
Qed.

Lemma disable_clears_OIE cr :
  Z.testbit (Z.land cr (Z.lnot (bv USIOIE))) USIOIE = false.
Proof.
  rewrite Z.land_spec. change (Z.testbit (Z.lnot (bv USIOIE)) USIOIE) with false.
  apply andb_false_r.
Qed.

Lemma disable_keeps_SIE cr :
  Z.testbit (Z.land cr (Z.lnot (bv USIOIE))) USISIE = Z.testbit cr USISIE.
Proof.
  rewrite Z.land_spec. change (Z.testbit (Z.lnot (bv USIOIE)) USISIE) with true.
  apply andb_true_r.
Qed.

Lemma u8_small x : 0 <= x < 256 -> u8 x = x.
Proof. intros H. unfold u8. apply to_unsigned_small. lia. Qed.

Lemma u8_range x : 0 <= u8 x < 256.
Proof. unfold u8, to_unsigned. apply Z.mod_pos_bound. reflexivity. Qed.

Lemma u8_add_l x y : u8 (u8 x + y) = u8 (x + y).
Proof. unfold u8, to_unsigned. apply Zplus_mod_idemp_l. Qed.

Create Rewrite HintDb usi_bits.
#[local] Hint Rewrite rmw_clears_PF clear_flags_PF overflow_keeps_PF
  enable_sets_OIE enable_keeps_SIE disable_clears_OIE disable_keeps_SIE
  : usi_bits.

(** ** The register file under a sequence of stores, and its windows *)

Lemma u8_shift_ne r k : 0 <= r < 256 -> 0 < k < 256 -> u8 (r + k) <> r.
Proof.
  intros Hr Hk. unfold u8, to_unsigned. change (2 ^ 8) with 256.
  destruct (Z_lt_ge_dec (r + k) 256) as [Hlt|Hge].
  - rewrite Z.mod_small by lia. lia.
  - replace (r + k) with (r + k - 256 + 1 * 256) by lia.
    rewrite Z_mod_plus_full, Z.mod_small by lia. lia.
Qed.

Lemma length_stored data : forall r regs,
  length (stored r data regs) = length regs.
Proof.
  induction data as [|d data IH]; intros r regs; cbn [stored]; [reflexivity|].
  now rewrite IH, length_insert.
Qed.

Lemma stored_other data : forall r regs j,
  0 <= r < 256 -> 0 <= j ->
  (forall i, 0 <= i < Z.of_nat (length data) -> u8 (r + i) <> j) ->
  stored r data regs !! Z.to_nat j = regs !! Z.to_nat j.
Proof.
  induction data as [|d data IH]; intros r regs j Hr Hj Hne; cbn [stored];
    [reflexivity|].
  rewrite IH.
  - apply list_lookup_insert_ne.
    specialize (Hne 0). rewrite Z.add_0_r, u8_small in Hne by assumption.
    cbn [length] in Hne. lia.
  - apply u8_range.
  - assumption.
  - intros i Hi. rewrite u8_add_l, <- Z.add_assoc. apply Hne.
    cbn [length]. lia.
Qed.

Lemma stored_lookup data : forall r regs i,
  0 <= r < 256 ->
  (forall i, 0 <= i < Z.of_nat (length data) ->
             (Z.to_nat (u8 (r + i)) < length regs)%nat) ->
  0 <= i < Z.of_nat (length data) -> Z.of_nat (length data) <= i + 256 ->
  stored r data regs !! Z.to_nat (u8 (r + i)) = data !! Z.to_nat i.
Proof.
  induction data as [|d data IH]; intros r regs i Hr Hin Hi Hlast;
    cbn [length] in *; [lia|].
  cbn [stored].
  destruct (Z.eq_dec i 0) as [->|Hpos].
  - rewrite Z.add_0_r, u8_small by assumption.
    rewrite stored_other.
    + rewrite list_lookup_insert_eq; [reflexivity|].
      specialize (Hin 0). rewrite Z.add_0_r, u8_small in Hin by assumption.
      apply Hin. lia.
    + apply u8_range.
    + lia.
    + intros k Hk. rewrite u8_add_l, <- Z.add_assoc.
      apply u8_shift_ne; lia.
  - replace (Z.to_nat i) with (S (Z.to_nat (i - 1))) by lia.
    change ((d :: data) !! S (Z.to_nat (i - 1))) with (data !! Z.to_nat (i - 1)).
    rewrite <- (IH (u8 (r + 1)) (<[Z.to_nat r := d]> regs) (i - 1)).
    + rewrite u8_add_l. do 3 f_equal. lia.
    + apply u8_range.
    + intros k Hk. rewrite length_insert, u8_add_l, <- Z.add_assoc.
      apply Hin. lia.
    + lia.
    + lia.
Qed.

Lemma length_window regs n : forall r, length (window regs r n) = n.
Proof. induction n as [|n IH]; intros r; cbn; [reflexivity|now rewrite IH]. Qed.

Lemma window_lookup regs n : forall r j,
  0 <= r < 256 -> 0 <= j < Z.of_nat n ->
  (Z.to_nat (u8 (r + j)) < length regs)%nat ->
  window regs r n !! Z.to_nat j = regs !! Z.to_nat (u8 (r + j)).
Proof.
  induction n as [|n IH]; intros r j Hr Hj Hin; [lia|].
  cbn [window].
  destruct (Z.eq_dec j 0) as [->|Hpos].
  - rewrite Z.add_0_r, u8_small in Hin by assumption.
    rewrite Z.add_0_r, (u8_small r) by assumption.
    destruct (lookup_lt_is_Some_2 regs _ Hin) as [b Hb].
    now rewrite Hb.
  - replace (Z.to_nat j) with (S (Z.to_nat (j - 1))) by lia.
    change ((?x :: ?l) !! S ?k) with (l !! k).
    replace (u8 (r + j)) with (u8 (u8 (r + 1) + (j - 1))) in *
      by (rewrite u8_add_l; f_equal; lia).
    apply IH; [apply u8_range|lia|assumption].
Qed.

(** ** One event at a time *)

Ltac red_state :=
  unfold oie, sie, stopf, bit_is_set, bit_is_clear, raise_flag, loaded in *;
  cbn [status rdir ack registers direction USIDR USISR USICR I2CD I2CP
       set_status set_rdir set_ack set_registers set_direction set_USIDR
       set_USISR set_USICR set_I2CD set_I2CP write_USISR
       mbind result_bind mret result_ret negb andb orb Z.eqb Pos.eqb
       fst snd app] in *.

Ltac enter s :=
  destruct s as [st0 rd0 ak0 regs0 dir0 dr0 sr0 cr0 dd0 pp0];
  red_state; subst.

Ltac handle :=
  unfold USI_OVF_vect, ovf_master_ack, ovf_after_ack, ovf_byte;
  red_state.

Ltac leave :=
  eexists; split; [reflexivity|];
  constructor; red_state; autorewrite with usi_bits; auto.

Section EngineFacts.

Variables SDAP SCLP : Z.

Lemma after_start s :
  ready s ->
  exists s', deliver SDAP SCLP START s = Ok (s', []) /\
    phase 0 (rdir s) 0 (registers s) (direction s) s'.
Proof.
  intros (Hak & Hsie & Hst). enter s.
  unfold deliver, USI_START_vect. red_state. rewrite Hsie.
  destruct Hst as [->|[-> Hoie]]; red_state; leave.
Qed.

Lemma phase_overflowed dr st rd ak regs dir s :
  phase st rd ak regs dir s ->
  phase st rd ak regs dir (overflowed dr s) /\ USIDR (overflowed dr s) = dr.
Proof.
  intros [? ? ? ? ? Ho Hs Hp]. unfold overflowed.
  split; [constructor|]; red_state; autorewrite with usi_bits; auto.
Qed.

(** *** The overflow handler, case by case *)

Lemma isr_address_write s a I2CPN rd regs :
  phase 0 rd 0 regs (Z.shiftr a 1) s -> USIDR s = a -> Z.land a 1 <> 1 ->
  exists s', USI_OVF_vect SDAP SCLP I2CPN s = Ok s' /\
    phase 1 rd 1 regs (Z.shiftr a 1) s'.
Proof.
  intros [? ? ? ? ? Ho Hs Hp] Ha Hw. enter s. handle.
  rewrite Z.eqb_refl.
  destruct (Z.eqb_spec (Z.land a 1) 1) as [|_]; [contradiction|].
  red_state. leave.
Qed.

Lemma isr_address_read s a I2CPN rd regs :
  phase 0 rd 0 regs (Z.shiftr a 1) s -> USIDR s = a -> Z.land a 1 = 1 ->
  exists s', USI_OVF_vect SDAP SCLP I2CPN s = Ok s' /\
    phase 4 rd 1 regs (Z.shiftr a 1) s'.
Proof.
  intros [? ? ? ? ? Ho Hs Hp] Ha Hr. enter s. handle.
  rewrite Z.eqb_refl, Hr. red_state. leave.
Qed.

Lemma isr_ninth_clock s I2CPN st rd regs dir :
  st = 1 \/ st = 2 -> phase st rd 1 regs dir s ->
  exists s', USI_OVF_vect SDAP SCLP I2CPN s = Ok s' /\
    phase st rd 0 regs dir s'.
Proof.
  intros Hst [? ? ? ? ? Ho Hs Hp].
  destruct Hst as [->| ->]; enter s; handle; leave.
Qed.

Lemma isr_pointer_byte s P I2CPN rd regs dir :
  phase 1 rd 0 regs dir s -> USIDR s = P ->
  exists s', USI_OVF_vect SDAP SCLP I2CPN s = Ok s' /\
    phase 2 P 1 regs dir s'.
Proof.
  intros [? ? ? ? ? Ho Hs Hp] HP. enter s. handle. leave.
Qed.

Lemma isr_data_byte s d I2CPN rd regs dir :
  phase 2 rd 0 regs dir s -> USIDR s = d -> (Z.to_nat rd < length regs)%nat ->
  exists s', USI_OVF_vect SDAP SCLP I2CPN s = Ok s' /\
    phase 3 rd 1 (<[Z.to_nat rd := d]> regs) dir s'.
Proof.
  intros [? ? ? ? ? Ho Hs Hp] Hd Hin. enter s. handle.
  rewrite store8_ok by assumption. red_state. leave.
Qed.

Lemma isr_data_ack s I2CPN rd regs dir :
  phase 3 rd 1 regs dir s ->
  exists s', USI_OVF_vect SDAP SCLP I2CPN s = Ok s' /\
    phase 2 (u8 (rd + 1)) 0 regs dir s'.
Proof.
  intros [? ? ? ? ? Ho Hs Hp]. enter s. handle.
  rewrite Hp. red_state. leave.
Qed.

Lemma isr_first_byte s I2CPN rd regs dir b :
  phase 4 rd 1 regs dir s -> regs !! Z.to_nat rd = Some b ->
  exists s', USI_OVF_vect SDAP SCLP I2CPN s = Ok s' /\
    phase 4 rd 0 regs dir s' /\ USIDR s' = b.
Proof.
  intros [? ? ? ? ? Ho Hs Hp] Hb. enter s. handle.
  rewrite (load8_ok _ _ _ Hb). red_state.
  eexists. split; [reflexivity|]. split; [|reflexivity].
  constructor; red_state; autorewrite with usi_bits; auto.
Qed.

Lemma isr_byte_sent s I2CPN rd regs dir :
  phase 4 rd 0 regs dir s ->
  exists s', USI_OVF_vect SDAP SCLP I2CPN s = Ok s' /\
    phase 5 rd 1 regs dir s'.
Proof.
  intros [? ? ? ? ? Ho Hs Hp]. enter s. handle. leave.
Qed.

Lemma isr_master_acks s I2CPN rd regs dir b :
  phase 5 rd 1 regs dir s -> acked SDAP SCLP I2CPN ->
  regs !! Z.to_nat (u8 (rd + 1)) = Some b ->
  exists s', USI_OVF_vect SDAP SCLP I2CPN s = Ok s' /\
    phase 4 (u8 (rd + 1)) 0 regs dir s' /\ USIDR s' = b.
Proof.
  intros [? ? ? ? ? Ho Hs Hp] (pins & later & -> & Hsda & Hscl) Hb.
  enter s. handle.
  rewrite Hsda, Hscl. red_state. rewrite (load8_ok _ _ _ Hb). red_state.
  eexists. split; [reflexivity|]. split; [|reflexivity].
  constructor; red_state; autorewrite with usi_bits; auto.
Qed.

Lemma isr_master_nacks s I2CPN rd regs dir :
  phase 5 rd 1 regs dir s -> nacked SDAP SCLP I2CPN ->
  exists s', USI_OVF_vect SDAP SCLP I2CPN s = Ok s' /\
    status s' = 0 /\ rdir s' = 0 /\ ack s' = 0 /\ registers s' = regs /\
    direction s' = dir /\ oie s' = false /\ sie s' = true.
Proof.
  intros [? ? ? ? ? Ho Hs Hp] (pins & later & -> & Hsda & Hscl).
  enter s. handle.
  rewrite Hsda, Hscl. red_state.
  eexists. split; [reflexivity|]. red_state.
  autorewrite with usi_bits. auto 10.
Qed.


(** *** The same cases as bus events *)

Lemma deliver_OVF s dr I2CPN st rd ak regs dir s' :
  phase st rd ak regs dir s ->
  USI_OVF_vect SDAP SCLP I2CPN (overflowed dr s) = Ok s' ->
  deliver SDAP SCLP (OVF dr I2CPN) s
  = Ok (s', if negb (ak =? 0) && (status s' =? 4) then [USIDR s'] else []).
Proof.
  intros Hph Hrun.
  destruct (phase_overflowed dr _ _ _ _ _ _ Hph) as [[_ _ Hak _ _ Ho _ _] _].
  unfold deliver. cbv zeta.
  change (bit_is_set (USICR (overflowed dr s)) USIOIE) with (oie (overflowed dr s)).
  rewrite Ho, Hrun. cbn [mbind result_bind]. unfold loaded.
  now rewrite Hak.
Qed.

Ltac as_event Hph Hrun Hpost :=
  rewrite (deliver_OVF _ _ _ _ _ _ _ _ _ Hph Hrun),
    (ph_status _ _ _ _ _ _ Hpost); reflexivity.

Lemma address_for_write s a I2CPN rd regs :
  phase 0 rd 0 regs (Z.shiftr a 1) s -> Z.land a 1 <> 1 ->
  exists s', deliver SDAP SCLP (OVF a I2CPN) s = Ok (s', []) /\
    phase 1 rd 1 regs (Z.shiftr a 1) s'.
Proof.
  intros Hph Hw.
  destruct (phase_overflowed a _ _ _ _ _ _ Hph) as [Hph1 Hdr].
  destruct (isr_address_write _ _ I2CPN _ _ Hph1 Hdr Hw) as (s' & Hrun & Hpost).
  exists s'. split; [as_event Hph Hrun Hpost|assumption].
Qed.

Lemma address_for_read s a I2CPN rd regs :
  phase 0 rd 0 regs (Z.shiftr a 1) s -> Z.land a 1 = 1 ->
  exists s', deliver SDAP SCLP (OVF a I2CPN) s = Ok (s', []) /\
    phase 4 rd 1 regs (Z.shiftr a 1) s'.
Proof.
  intros Hph Hr.
  destruct (phase_overflowed a _ _ _ _ _ _ Hph) as [Hph1 Hdr].
  destruct (isr_address_read _ _ I2CPN _ _ Hph1 Hdr Hr) as (s' & Hrun & Hpost).
  exists s'. split; [as_event Hph Hrun Hpost|assumption].
Qed.

(** The ninth clock of the address byte of a write, or of the pointer
    byte. *)
Lemma ninth_clock s dr I2CPN st rd regs dir :
  st = 1 \/ st = 2 -> phase st rd 1 regs dir s ->
  exists s', deliver SDAP SCLP (OVF dr I2CPN) s = Ok (s', []) /\
    phase st rd 0 regs dir s'.
Proof.
  intros Hst Hph.
  destruct (phase_overflowed dr _ _ _ _ _ _ Hph) as [Hph1 Hdr].
  destruct (isr_ninth_clock _ I2CPN _ _ _ _ Hst Hph1) as (s' & Hrun & Hpost).
  exists s'. split; [|assumption].
  destruct Hst as [->| ->]; as_event Hph Hrun Hpost.
Qed.

Lemma pointer_byte s P I2CPN rd regs dir :
  phase 1 rd 0 regs dir s ->
  exists s', deliver SDAP SCLP (OVF P I2CPN) s = Ok (s', []) /\
    phase 2 P 1 regs dir s'.
Proof.
  intros Hph.
  destruct (phase_overflowed P _ _ _ _ _ _ Hph) as [Hph1 Hdr].
  destruct (isr_pointer_byte _ _ I2CPN _ _ _ Hph1 Hdr) as (s' & Hrun & Hpost).
  exists s'. split; [as_event Hph Hrun Hpost|assumption].
Qed.

Lemma data_byte s d I2CPN rd regs dir :
  phase 2 rd 0 regs dir s -> (Z.to_nat rd < length regs)%nat ->
  exists s', deliver SDAP SCLP (OVF d I2CPN) s = Ok (s', []) /\
    phase 3 rd 1 (<[Z.to_nat rd := d]> regs) dir s'.
Proof.
  intros Hph Hin.
  destruct (phase_overflowed d _ _ _ _ _ _ Hph) as [Hph1 Hdr].
  destruct (isr_data_byte _ _ I2CPN _ _ _ Hph1 Hdr Hin) as (s' & Hrun & Hpost).
  exists s'. split; [as_event Hph Hrun Hpost|assumption].
Qed.

(** The ninth clock of a data byte when no stop condition was flagged
    since the byte was stored. *)
Lemma data_ack s dr I2CPN rd regs dir :
  phase 3 rd 1 regs dir s ->
  exists s', deliver SDAP SCLP (OVF dr I2CPN) s = Ok (s', []) /\
    phase 2 (u8 (rd + 1)) 0 regs dir s'.
Proof.
  intros Hph.
  destruct (phase_overflowed dr _ _ _ _ _ _ Hph) as [Hph1 Hdr].
  destruct (isr_data_ack _ I2CPN _ _ _ Hph1) as (s' & Hrun & Hpost).
  exists s'. split; [as_event Hph Hrun Hpost|assumption].
Qed.

(** The ninth clock of the address byte of a read. *)
Lemma first_byte s dr I2CPN rd regs dir b :
  phase 4 rd 1 regs dir s -> regs !! Z.to_nat rd = Some b ->
  exists s', deliver SDAP SCLP (OVF dr I2CPN) s = Ok (s', [b]) /\
    phase 4 rd 0 regs dir s'.
Proof.
  intros Hph Hb.
  destruct (phase_overflowed dr _ _ _ _ _ _ Hph) as [Hph1 Hdr].
  destruct (isr_first_byte _ I2CPN _ _ _ _ Hph1 Hb) as (s' & Hrun & Hpost & <-).
  exists s'. split; [as_event Hph Hrun Hpost|assumption].
Qed.

Lemma byte_sent s dr I2CPN rd regs dir :
  phase 4 rd 0 regs dir s ->
  exists s', deliver SDAP SCLP (OVF dr I2CPN) s = Ok (s', []) /\
    phase 5 rd 1 regs dir s'.
Proof.
  intros Hph.
  destruct (phase_overflowed dr _ _ _ _ _ _ Hph) as [Hph1 Hdr].
  destruct (isr_byte_sent _ I2CPN _ _ _ Hph1) as (s' & Hrun & Hpost).
  exists s'. split; [as_event Hph Hrun Hpost|assumption].
Qed.

Lemma master_acks s dr I2CPN rd regs dir b :
  phase 5 rd 1 regs dir s -> acked SDAP SCLP I2CPN ->
  regs !! Z.to_nat (u8 (rd + 1)) = Some b ->
  exists s', deliver SDAP SCLP (OVF dr I2CPN) s = Ok (s', [b]) /\
    phase 4 (u8 (rd + 1)) 0 regs dir s'.
Proof.
  intros Hph Hack Hb.
  destruct (phase_overflowed dr _ _ _ _ _ _ Hph) as [Hph1 Hdr].
  destruct (isr_master_acks _ _ _ _ _ _ Hph1 Hack Hb) as (s' & Hrun & Hpost & <-).
  exists s'. split; [as_event Hph Hrun Hpost|assumption].
Qed.

Lemma master_nacks s dr I2CPN rd regs dir :
  phase 5 rd 1 regs dir s -> nacked SDAP SCLP I2CPN ->
  exists s', deliver SDAP SCLP (OVF dr I2CPN) s = Ok (s', []) /\
    status s' = 0 /\ rdir s' = 0 /\ ack s' = 0 /\ registers s' = regs /\
    direction s' = dir /\ oie s' = false /\ sie s' = true.
Proof.
  intros Hph Hnack.
  destruct (phase_overflowed dr _ _ _ _ _ _ Hph) as [Hph1 Hdr].
  destruct (isr_master_nacks _ _ _ _ _ Hph1 Hnack) as (s' & Hrun & Hst & Hpost).
  exists s'. split; [|now split].
  rewrite (deliver_OVF _ _ _ _ _ _ _ _ _ Hph Hrun), Hst. reflexivity.
Qed.

(** ** Sequences of events *)

Lemma run_cons e es s s1 o1 s2 o2 :
  deliver SDAP SCLP e s = Ok (s1, o1) -> run SDAP SCLP es s1 = Ok (s2, o2) ->
  run SDAP SCLP (e :: es) s = Ok (s2, o1 ++ o2).
Proof.
  intros H1 H2. cbn [run]. rewrite H1. cbn [mbind result_bind].
  rewrite H2. reflexivity.
Qed.

Lemma run_app es1 : forall es2 s s1 o1 s2 o2,
  run SDAP SCLP es1 s = Ok (s1, o1) -> run SDAP SCLP es2 s1 = Ok (s2, o2) ->
  run SDAP SCLP (es1 ++ es2) s = Ok (s2, o1 ++ o2).
Proof.
  induction es1 as [|e es1 IH]; intros es2 s s1 o1 s2 o2 H1 H2.
  - cbn in H1. injection H1 as <- <-. exact H2.
  - cbn [run] in H1.
    destruct (deliver SDAP SCLP e s) as [[s0 o0]|] eqn:He; [|discriminate].
    cbn [mbind result_bind] in H1.
    destruct (run SDAP SCLP es1 s0) as [[s3 o3]|] eqn:Hr; [|discriminate].
    cbn [mbind result_bind] in H1. injection H1 as <- <-.
    rewrite <- app_comm_cons. rewrite <- app_assoc.
    apply run_cons with (s1 := s0); [assumption|].
    now apply IH with (s1 := s3).
Qed.

Lemma run_two e1 e2 s s1 o1 s2 o2 :
  deliver SDAP SCLP e1 s = Ok (s1, o1) -> deliver SDAP SCLP e2 s1 = Ok (s2, o2) ->
  run SDAP SCLP [e1; e2] s = Ok (s2, o1 ++ o2).
Proof.
  intros H1 H2. apply run_cons with (s1 := s1); [assumption|].
  rewrite <- (app_nil_r o2). apply run_cons with (s1 := s2); [assumption|].
  reflexivity.
Qed.

(** *** Received bytes *)

Lemma write_address s a rd regs :
  phase 0 rd 0 regs (Z.shiftr a 1) s -> Z.land a 1 <> 1 ->
  exists s', run SDAP SCLP (byte_in a) s = Ok (s', []) /\
    phase 1 rd 0 regs (Z.shiftr a 1) s'.
Proof.
  intros Hph Hw.
  destruct (address_for_write s a [] rd regs Hph Hw) as (s1 & H1 & Hph1).
  destruct (ninth_clock s1 0 [] 1 rd regs _ (or_introl eq_refl) Hph1)
    as (s2 & H2 & Hph2).
  exists s2. split; [|assumption]. exact (run_two _ _ _ _ _ _ _ H1 H2).
Qed.

Lemma write_pointer s P rd regs dir :
  phase 1 rd 0 regs dir s ->
  exists s', run SDAP SCLP (byte_in P) s = Ok (s', []) /\
    phase 2 P 0 regs dir s'.
Proof.
  intros Hph.
  destruct (pointer_byte s P [] rd regs dir Hph) as (s1 & H1 & Hph1).
  destruct (ninth_clock s1 0 [] 2 P regs _ (or_intror eq_refl) Hph1)
    as (s2 & H2 & Hph2).
  exists s2. split; [|assumption]. exact (run_two _ _ _ _ _ _ _ H1 H2).
Qed.

Lemma write_data_byte s d rd regs dir :
  phase 2 rd 0 regs dir s -> (Z.to_nat rd < length regs)%nat ->
  exists s', run SDAP SCLP (byte_in d) s = Ok (s', []) /\
    phase 2 (u8 (rd + 1)) 0 (<[Z.to_nat rd := d]> regs) dir s'.
Proof.
  intros Hph Hin.
  destruct (data_byte s d [] rd regs dir Hph Hin) as (s1 & H1 & Hph1).
  destruct (data_ack s1 0 [] rd _ dir Hph1) as (s2 & H2 & Hph2).
  exists s2. split; [|assumption]. exact (run_two _ _ _ _ _ _ _ H1 H2).
Qed.

Lemma write_data data : forall s rd regs dir,
  phase 2 rd 0 regs dir s -> 0 <= rd < 256 ->
  (forall i, 0 <= i < Z.of_nat (length data) ->
             (Z.to_nat (u8 (rd + i)) < length regs)%nat) ->
  exists s', run SDAP SCLP (flat_map byte_in data) s = Ok (s', []) /\
    phase 2 (u8 (rd + Z.of_nat (length data))) 0 (stored rd data regs) dir s'.
Proof.
  induction data as [|d data IH]; intros s rd regs dir Hph Hrd Hin.
  - exists s. split; [reflexivity|].
    cbn [length stored]. now rewrite Z.add_0_r, u8_small.
  - cbn [flat_map stored].
    destruct (write_data_byte s d rd regs dir Hph) as (s1 & H1 & Hph1).
    { specialize (Hin 0). rewrite Z.add_0_r, u8_small in Hin by assumption.
      apply Hin. cbn [length]. lia. }
    destruct (IH s1 (u8 (rd + 1)) (<[Z.to_nat rd := d]> regs) dir Hph1)
      as (s2 & H2 & Hph2).
    { apply u8_range. }
    { intros i Hi. rewrite length_insert.
      rewrite u8_add_l, <- Z.add_assoc.
      apply Hin. cbn [length]. lia. }
    exists s2. split.
    + exact (run_app _ _ _ _ _ _ _ H1 H2).
    + replace (u8 (rd + Z.of_nat (length (d :: data))))
        with (u8 (u8 (rd + 1) + Z.of_nat (length data))); [assumption|].
      rewrite u8_add_l. f_equal. cbn [length]. lia.
Qed.

(** *** Transmitted bytes *)

Lemma read_address s a rd regs b :
  phase 0 rd 0 regs (Z.shiftr a 1) s -> Z.land a 1 = 1 ->
  regs !! Z.to_nat rd = Some b ->
  exists s', run SDAP SCLP (byte_in a) s = Ok (s', [b]) /\
    phase 4 rd 0 regs (Z.shiftr a 1) s'.
Proof.
  intros Hph Hr Hb.
  destruct (address_for_read s a [] rd regs Hph Hr) as (s1 & H1 & Hph1).
  destruct (first_byte s1 0 [] rd regs _ b Hph1 Hb) as (s2 & H2 & Hph2).
  exists s2. split; [|assumption]. exact (run_two _ _ _ _ _ _ _ H1 H2).
Qed.

Lemma read_next s I2CPN rd regs dir b :
  phase 4 rd 0 regs dir s -> acked SDAP SCLP I2CPN ->
  regs !! Z.to_nat (u8 (rd + 1)) = Some b ->
  exists s', run SDAP SCLP (byte_out I2CPN) s = Ok (s', [b]) /\
    phase 4 (u8 (rd + 1)) 0 regs dir s'.
Proof.
  intros Hph Hack Hb.
  destruct (byte_sent s 0 [] rd regs dir Hph) as (s1 & H1 & Hph1).
  destruct (master_acks s1 0 I2CPN rd regs dir b Hph1 Hack Hb)
    as (s2 & H2 & Hph2).
  exists s2. split; [|assumption]. exact (run_two _ _ _ _ _ _ _ H1 H2).
Qed.

Lemma read_more acks : forall s rd regs dir,
  phase 4 rd 0 regs dir s -> 0 <= rd < 256 ->
  Forall (acked SDAP SCLP) acks ->
  (forall j, 0 < j <= Z.of_nat (length acks) ->
             (Z.to_nat (u8 (rd + j)) < length regs)%nat) ->
  exists s',
    run SDAP SCLP (flat_map byte_out acks) s
    = Ok (s', window regs (u8 (rd + 1)) (length acks)) /\
    phase 4 (u8 (rd + Z.of_nat (length acks))) 0 regs dir s'.
Proof.
  induction acks as [|I2CPN acks IH]; intros s rd regs dir Hph Hrd Hacks Hin.
  - exists s. split; [reflexivity|].
    cbn [length]. now rewrite Z.add_0_r, u8_small.
  - cbn [flat_map length window]. cbn [length] in Hin.
    apply Forall_cons in Hacks as [Hack Hacks].
    destruct (lookup_lt_is_Some_2 regs (Z.to_nat (u8 (rd + 1)))) as [b Hb].
    { apply Hin. lia. }
    destruct (read_next s I2CPN rd regs dir b Hph Hack Hb) as (s1 & H1 & Hph1).
    destruct (IH s1 (u8 (rd + 1)) regs dir Hph1) as (s2 & H2 & Hph2).
    { apply u8_range. }
    { assumption. }
    { intros j Hj. rewrite u8_add_l, <- Z.add_assoc. apply Hin. lia. }
    exists s2. split.
    + rewrite Hb. exact (run_app _ _ _ _ _ _ _ H1 H2).
    + replace (u8 (rd + Z.of_nat (S (length acks))))
        with (u8 (u8 (rd + 1) + Z.of_nat (length acks))); [assumption|].
      rewrite u8_add_l. f_equal. lia.
Qed.

Lemma read_last s I2CPN rd regs dir :
  phase 4 rd 0 regs dir s -> nacked SDAP SCLP I2CPN ->
  exists s', run SDAP SCLP (byte_out I2CPN) s = Ok (s', []) /\
    status s' = 0 /\ rdir s' = 0 /\ ack s' = 0 /\ registers s' = regs /\
    direction s' = dir /\ oie s' = false /\ sie s' = true.
Proof.
  intros Hph Hnack.
  destruct (byte_sent s 0 [] rd regs dir Hph) as (s1 & H1 & Hph1).
  destruct (master_nacks s1 0 I2CPN rd regs dir Hph1 Hnack) as (s2 & H2 & Hpost).
  exists s2. split; [|assumption]. exact (run_two _ _ _ _ _ _ _ H1 H2).
Qed.

(** *** Whole transactions *)

Lemma write_txn s a P data :
  ready s -> Z.shiftr a 1 = direction s -> Z.land a 1 <> 1 -> 0 <= P < 256 ->
  (forall i, 0 <= i < Z.of_nat (length data) ->
             (Z.to_nat (u8 (P + i)) < length (registers s))%nat) ->
  exists s', run SDAP SCLP (write_events a P data) s = Ok (s', []) /\
    phase 2 (u8 (P + Z.of_nat (length data))) 0
          (stored P data (registers s)) (direction s) s'.
Proof.
  intros Hready Ha Hw HP Hin.
  destruct (after_start s Hready) as (s0 & H0 & Hph0).
  rewrite <- Ha in Hph0 |- *.
  destruct (write_address s0 a _ _ Hph0 Hw) as (s1 & H1 & Hph1).
  destruct (write_pointer s1 P _ _ _ Hph1) as (s2 & H2 & Hph2).
  destruct (write_data data s2 P _ _ Hph2 HP Hin) as (s3 & H3 & Hph3).
  exists s3. split; [|assumption].
  unfold write_events.
  apply run_cons with (s1 := s0) (o1 := []) (o2 := []); [assumption|].
  apply run_app with (s1 := s1) (o1 := []) (o2 := []); [assumption|].
  apply run_app with (s1 := s2) (o1 := []) (o2 := []); assumption.
Qed.

Lemma read_txn s a acks :
  ready s -> 0 <= rdir s < 256 ->
  Z.shiftr a 1 = direction s -> Z.land a 1 = 1 ->
  Forall (acked SDAP SCLP) acks ->
  (forall j, 0 <= j <= Z.of_nat (length acks) ->
             (Z.to_nat (u8 (rdir s + j)) < length (registers s))%nat) ->
  exists s',
    run SDAP SCLP (read_events a acks) s
    = Ok (s', window (registers s) (rdir s) (S (length acks))) /\
    phase 4 (u8 (rdir s + Z.of_nat (length acks))) 0
          (registers s) (direction s) s'.
Proof.
  intros Hready Hrd Ha Hr Hacks Hin.
  destruct (after_start s Hready) as (s0 & H0 & Hph0).
  rewrite <- Ha in Hph0 |- *.
  destruct (lookup_lt_is_Some_2 (registers s) (Z.to_nat (rdir s))) as [b Hb].
  { specialize (Hin 0). rewrite Z.add_0_r, u8_small in Hin by assumption.
    apply Hin. lia. }
  destruct (read_address s0 a _ _ b Hph0 Hr Hb) as (s1 & H1 & Hph1).
  destruct (read_more acks s1 _ _ _ Hph1 Hrd Hacks) as (s2 & H2 & Hph2).
  { intros j Hj. apply Hin. lia. }
  exists s2. split; [|assumption].
  unfold read_events. cbn [window]. rewrite Hb.
  apply run_cons with (s1 := s0) (o1 := []); [assumption|].
  apply run_app with (s1 := s1) (o1 := [b]); assumption.
Qed.

Lemma ready_after_write s rd regs dir :
  phase 2 rd 0 regs dir s -> ready s.
Proof. intros [Hst _ Hak _ _ Ho Hs _]. repeat split; auto. Qed.

(** A stop condition raises its flag and runs no handler. *)
Lemma stop_event s :
  exists s', deliver SDAP SCLP STOP s = Ok (s', []) /\
    status s' = status s /\ rdir s' = rdir s /\ ack s' = ack s /\
    registers s' = registers s /\ direction s' = direction s /\
    USICR s' = USICR s /\ stopf s' = true.
Proof.
  eexists. split; [reflexivity|].
  unfold stopf, raise_flag. cbn [status rdir ack registers direction USICR USISR set_USISR].
  repeat split. rewrite Z.lor_spec.
  change (Z.testbit (bv USIPF) USIPF) with true. apply orb_true_r.
Qed.

(** With the overflow interrupt detached, no event but a start condition
    reaches the engine. *)
Lemma detached_silent es : forall s,
  Forall not_start es -> oie s = false ->
  exists s', run SDAP SCLP es s = Ok (s', []) /\
    status s' = status s /\ rdir s' = rdir s /\ ack s' = ack s /\
    registers s' = registers s /\ oie s' = false.
Proof.
  induction es as [|e es IH]; intros s Hns Ho.
  - exists s. repeat split; auto.
  - apply Forall_cons in Hns as [He Hns].
    assert (exists s1, deliver SDAP SCLP e s = Ok (s1, []) /\
              status s1 = status s /\ rdir s1 = rdir s /\ ack s1 = ack s /\
              registers s1 = registers s /\ oie s1 = false)
      as (s1 & H1 & Hst & Hrd & Hak & Hregs & Ho1).
    { destruct e as [| |dr I2CPN]; [contradiction| |].
      - destruct (stop_event s) as (s1 & H1 & ? & ? & ? & ? & ? & Hcr & ?).
        exists s1. unfold oie in *. rewrite Hcr. auto 10.
      - exists (overflowed dr s). unfold deliver. cbv zeta.
        change (bit_is_set (USICR (overflowed dr s)) USIOIE)
          with (oie (overflowed dr s)).
        assert (Ho1 : oie (overflowed dr s) = false) by exact Ho.
        rewrite Ho1. repeat split; auto. }
    destruct (IH s1 Hns Ho1) as (s2 & H2 & ? & ? & ? & ? & ?).
    exists s2. split.
    + exact (run_cons _ _ _ _ _ _ _ H1 H2).
    + repeat split; congruence.
Qed.

(** ** Write transactions *)

(** C4: from a state between two transactions, a start condition, an
    address byte [a] that matches the slave address with R/W = 0, a pointer
    byte [P] and the data bytes [data], each followed by its ninth clock,
    leave byte [i] of [data] at index [(P + i) mod 256] of the register
    file ([u8] is the reduction modulo 256 of the [uint8_t] pointer; a byte
    is overwritten only by a byte sent 256 or more positions later), leave
    all other registers as they were, and leave the pointer at
    [(P + length data) mod 256]: it advanced by one after each stored byte.
    The stores must fall inside the register file. *)
Theorem multi_byte_write (s : state) (a P : Z) (data : list Z) :
  ready s -> Z.shiftr a 1 = direction s -> Z.land a 1 = 0 -> 0 <= P < 256 ->
  (forall i, 0 <= i < Z.of_nat (length data) ->
             (Z.to_nat (u8 (P + i)) < length (registers s))%nat) ->
  exists s',
    run SDAP SCLP (write_events a P data) s = Ok (s', []) /\
    (forall i, 0 <= i < Z.of_nat (length data) ->
               Z.of_nat (length data) <= i + 256 ->
               registers s' !! Z.to_nat (u8 (P + i)) = data !! Z.to_nat i) /\
    (forall j, 0 <= j ->
               (forall i, 0 <= i < Z.of_nat (length data) -> u8 (P + i) <> j) ->
               registers s' !! Z.to_nat j = registers s !! Z.to_nat j) /\
    length (registers s') = length (registers s) /\
    rdir s' = u8 (P + Z.of_nat (length data)) /\
    status s' = 2.
Proof.
  intros Hready Ha Hw HP Hin.
  destruct (write_txn s a P data Hready Ha) as (s' & Hrun & Hph);
    [lia|assumption|assumption|].
  destruct Hph as [Hst Hrd _ Hregs _ _ _ _].
  exists s'. split; [assumption|]. rewrite Hregs.
  split; [|split; [|split; [|split]]].
  - intros i Hi Hlast. now apply stored_lookup.
  - intros j Hj Hne. now apply stored_other.
  - apply length_stored.
  - assumption.
  - assumption.
Qed.

(** ** Read transactions *)

(** C2, as the code has it: after a write transaction with pointer byte
    [P] and [length data] data bytes, a read transaction (with or without a
    stop condition in between) transmits the registers from index
    [(P + length data) mod 256] on, one more for each ACK of the master:
    the read starts where the write left the pointer, one past the last
    byte written. *)
Theorem read_after_write (s : state) (aw ar P : Z) (data : list Z)
    (stop : bool) (acks : list (list Z)) :
  ready s -> Z.shiftr aw 1 = direction s -> Z.land aw 1 = 0 ->
  Z.shiftr ar 1 = direction s -> Z.land ar 1 = 1 -> 0 <= P < 256 ->
  Forall (acked SDAP SCLP) acks ->
  (forall i, 0 <= i < Z.of_nat (length data) ->
             (Z.to_nat (u8 (P + i)) < length (registers s))%nat) ->
  (forall j, 0 <= j <= Z.of_nat (length acks) ->
             (Z.to_nat (u8 (P + Z.of_nat (length data) + j))
              < length (registers s))%nat) ->
  exists s1 s2 out,
    run SDAP SCLP (write_events aw P data) s = Ok (s1, []) /\
    run SDAP SCLP ((if stop then [STOP] else []) ++ read_events ar acks) s1
    = Ok (s2, out) /\
    length out = S (length acks) /\
    (forall j, 0 <= j <= Z.of_nat (length acks) ->
               out !! Z.to_nat j
               = registers s1 !! Z.to_nat (u8 (P + Z.of_nat (length data) + j))) /\
    rdir s2 = u8 (P + Z.of_nat (length data) + Z.of_nat (length acks)).
Proof.
  intros Hready Haw Hw Har Hr HP Hacks Hin Hout.
  destruct (write_txn s aw P data Hready Haw) as (s1 & Hrun1 & Hph1);
    [lia|assumption|assumption|].
  pose proof (ready_after_write _ _ _ _ Hph1) as Hready1.
  destruct Hph1 as [Hst1 Hrd1 Hak1 Hregs1 Hdir1 Ho1 Hs1 _].
  assert (exists s1',
            run SDAP SCLP (if stop then [STOP] else []) s1 = Ok (s1', []) /\
            ready s1' /\ rdir s1' = rdir s1 /\ registers s1' = registers s1 /\
            direction s1' = direction s1)
    as (s1' & Hgap & Hready1' & Hrd1' & Hregs1' & Hdir1').
  { destruct stop.
    - destruct (stop_event s1) as (s1' & Hd & Hst & Hrd & Hak & Hregs & Hdir & Hcr & _).
      exists s1'. split.
      + apply (run_cons STOP [] s1 s1' [] s1' []); [assumption|reflexivity].
      + unfold ready, oie, sie in *. rewrite Hst, Hak, Hcr. auto.
    - exists s1. auto. }
  destruct (read_txn s1' ar acks Hready1') as (s2 & Hrun2 & Hph2).
  { rewrite Hrd1', Hrd1. apply u8_range. }
  { congruence. }
  { assumption. }
  { assumption. }
  { intros j Hj. rewrite Hrd1', Hregs1', Hrd1, Hregs1, u8_add_l, length_stored.
    now apply Hout. }
  exists s1, s2, (window (registers s1') (rdir s1') (S (length acks))).
  split; [assumption|]. split; [|split; [|split]].
  - apply run_app with (s1 := s1') (o1 := []); assumption.
  - apply length_window.
  - intros j Hj. rewrite Hrd1', Hregs1', Hrd1, <- (u8_add_l (P + _)).
    apply window_lookup; [apply u8_range|lia|].
    rewrite Hregs1, u8_add_l, length_stored. now apply Hout.
  - destruct Hph2 as [_ Hrd2 _ _ _ _ _ _].
    now rewrite Hrd2, Hrd1', Hrd1, u8_add_l.
Qed.

(** C3, as the code has it: in a read transaction that starts at pointer
    [rdir s], when the master answers the first [length acks] bytes with
    ACK and the next one with NACK, exactly [length acks + 1] bytes are
    transmitted, the registers from the pointer on; the NACK resets the
    pointer to 0 and the state to 0 and detaches the overflow interrupt, so
    that nothing more is transmitted before the next start condition. *)
Theorem nack_ends_read (s : state) (a : Z) (acks : list (list Z))
    (last : list Z) :
  ready s -> 0 <= rdir s < 256 ->
  Z.shiftr a 1 = direction s -> Z.land a 1 = 1 ->
  Forall (acked SDAP SCLP) acks -> nacked SDAP SCLP last ->
  (forall j, 0 <= j <= Z.of_nat (length acks) ->
             (Z.to_nat (u8 (rdir s + j)) < length (registers s))%nat) ->
  exists s' out,
    run SDAP SCLP (read_events a acks ++ byte_out last) s = Ok (s', out) /\
    length out = S (length acks) /\
    (forall j, 0 <= j <= Z.of_nat (length acks) ->
               out !! Z.to_nat j = registers s !! Z.to_nat (u8 (rdir s + j))) /\
    status s' = 0 /\ rdir s' = 0 /\ oie s' = false /\
    (forall es, Forall not_start es ->
       exists s'', run SDAP SCLP es s' = Ok (s'', []) /\
                   status s'' = 0 /\ rdir s'' = 0).
Proof.
  intros Hready Hrd Ha Hr Hacks Hnack Hin.
  destruct (read_txn s a acks Hready Hrd Ha Hr Hacks Hin) as (s1 & Hrun1 & Hph1).
  destruct (read_last s1 last _ _ _ Hph1 Hnack)
    as (s2 & Hrun2 & Hst & Hrd2 & Hak & Hregs & Hdir & Ho & Hs).
  exists s2, (window (registers s) (rdir s) (S (length acks))).
  split; [|split; [|split; [|split; [|split; [|split]]]]]; try assumption.
  - rewrite <- (app_nil_r (window _ _ _)).
    apply run_app with (s1 := s1); assumption.
  - apply length_window.
  - intros j Hj. apply window_lookup; [assumption|lia|now apply Hin].
  - intros es Hes.
    destruct (detached_silent es s2 Hes Ho) as (s3 & Hrun3 & Hst3 & Hrd3 & _).
    exists s3. split; [assumption|]. split; congruence.
Qed.

(** ** Start conditions *)

(** C5, as the code has it: the start handler sets the state to 0 when
    it runs in state 2 and leaves the state as it is in every other state;
    pointer, ACK flag and register file are never touched.  In state 2 the
    interrupt enables and the data register stay as they are, in the other
    states the overflow interrupt is enabled and the data register
    cleared. *)
Theorem start_condition_handling (s : state) :
  let s' := USI_START_vect SCLP s in
  status s' = (if status s =? 2 then 0 else status s) /\
  rdir s' = rdir s /\ ack s' = ack s /\ registers s' = registers s /\
  (if status s =? 2
   then USICR s' = USICR s /\ USIDR s' = USIDR s
   else oie s' = true /\ USIDR s' = 0).
Proof.
  destruct s as [st0 rd0 ak0 regs0 dir0 dr0 sr0 cr0 dd0 pp0].
  cbv zeta. unfold USI_START_vect. red_state.
  destruct (st0 =? 2); red_state; autorewrite with usi_bits;
    repeat split; reflexivity.
Qed.

(** C6: the start handler leaves the register pointer unchanged in every
    state, and so does a start condition on the bus, whether the handler
    is attached or not. *)
Theorem start_keeps_pointer (s : state) :
  rdir (USI_START_vect SCLP s) = rdir s /\
  exists s', deliver SDAP SCLP START s = Ok (s', []) /\ rdir s' = rdir s.
Proof.
  destruct s as [st0 rd0 ak0 regs0 dir0 dr0 sr0 cr0 dd0 pp0].
  unfold deliver, USI_START_vect. red_state.
  split.
  - destruct (st0 =? 2); reflexivity.
  - destruct (Z.testbit cr0 USISIE); eexists; (split; [reflexivity|]);
      [destruct (st0 =? 2)|]; reflexivity.
Qed.

(** ** Address phase *)

Lemma bv_other_bit n m : 0 <= m -> m <> n -> Z.testbit (bv n) m = false.
Proof.
  intros Hm Hne. unfold bv. rewrite Z.shiftl_spec by assumption.
  destruct (Z.ltb_spec (m - n) 0) as [Hneg|Hpos].
  - now apply Z.testbit_neg_r.
  - change 1 with (2 ^ 0). rewrite Z.pow2_bits_eqb by lia.
    apply Z.eqb_neq. lia.
Qed.

(** C7: when the overflow handler decodes an address byte (state 0, not in
    ACK mode) whose upper seven bits differ from the slave address, it
    returns with state, pointer, ACK flag, register file, interrupt enables
    and port register unchanged, and the direction bit of SDA is what it
    was: the line is not driven for an ACK. *)
Theorem address_mismatch_ignored (I2CPN : list Z) (s : state) :
  0 <= SDAP -> SDAP <> SCLP ->
  status s = 0 -> ack s = 0 -> Z.shiftr (USIDR s) 1 <> direction s ->
  exists s', USI_OVF_vect SDAP SCLP I2CPN s = Ok s' /\
    status s' = status s /\ rdir s' = rdir s /\ ack s' = ack s /\
    registers s' = registers s /\ direction s' = direction s /\
    USICR s' = USICR s /\ I2CP s' = I2CP s /\
    Z.testbit (I2CD s') SDAP = Z.testbit (I2CD s) SDAP /\
    loaded s s' = [].
Proof.
  intros Hpin Hpins Hst Hak Hne. enter s. handle.
  destruct (Z.eqb_spec (Z.shiftr dr0 1) dir0) as [|_]; [contradiction|].
  red_state. eexists. split; [reflexivity|]. red_state.
  repeat split.
  rewrite Z.land_spec, Z.lor_spec, Z.lnot_spec, bv_other_bit by assumption.
  now rewrite orb_false_r, andb_true_r.
Qed.

(** ** Stop flag *)

(** C8, as the code has it: the overflow handler that runs in ACK mode
    in state 3 with the stop flag set resets the pointer to 0 and the state
    to 0 and detaches the overflow interrupt; a read transaction that
    follows transmits register 0 first.  A stop condition itself runs no
    handler: it raises the flag and leaves state and pointer as they
    are. *)
Theorem stop_flag_resets_pointer (I2CPN : list Z) (s : state) :
  ack s <> 0 -> status s = 3 -> stopf s = true ->
  (exists s', USI_OVF_vect SDAP SCLP I2CPN s = Ok s' /\
     rdir s' = 0 /\ status s' = 0 /\ oie s' = false /\
     registers s' = registers s /\
     (forall a b, sie s = true -> Z.shiftr a 1 = direction s ->
        Z.land a 1 = 1 -> registers s !! 0%nat = Some b ->
        exists s'', run SDAP SCLP (read_events a []) s' = Ok (s'', [b]) /\
                    rdir s'' = 0)) /\
  (exists s', deliver SDAP SCLP STOP s = Ok (s', []) /\
     rdir s' = rdir s /\ status s' = status s).
Proof.
  intros Hak Hst Hp. split.
  - assert (exists s', USI_OVF_vect SDAP SCLP I2CPN s = Ok s' /\
              rdir s' = 0 /\ status s' = 0 /\ ack s' = 0 /\ oie s' = false /\
              registers s' = registers s /\ direction s' = direction s /\
              sie s' = sie s)
      as (s' & Hrun & Hrd & Hst' & Hak' & Ho & Hregs & Hdir & Hs).
    { enter s. handle.
      destruct (Z.eqb_spec ak0 0) as [|_]; [contradiction|].
      red_state. rewrite Hp. red_state.
      eexists. split; [reflexivity|]. red_state.
      autorewrite with usi_bits. auto 10. }
    exists s'. repeat (split; [assumption|]).
    intros a b Hsie Ha Hr Hb.
    destruct (read_txn s' a []) as (s'' & Hrun' & Hph).
    + unfold ready. rewrite Hak', Hs, Hst'. auto.
    + rewrite Hrd. lia.
    + congruence.
    + assumption.
    + constructor.
    + intros j Hj. cbn [length] in Hj. replace j with 0 by lia.
      rewrite Hrd, Hregs. apply lookup_lt_Some with (x := b). exact Hb.
    + exists s''. split.
      * rewrite Hrun', Hrd, Hregs. cbn [length window]. change (Z.to_nat 0) with 0%nat.
        now rewrite Hb.
      * destruct Hph as [_ Hrd'' _ _ _ _ _ _]. now rewrite Hrd'', Hrd.
  - destruct (stop_event s) as (s' & Hd & Hst' & Hrd & _).
    exists s'. auto.
Qed.

(** ** Pointer arithmetic *)

(** C9: both increments of the pointer, after the ninth clock of a stored
    byte (ACK mode, state 3, no stop flag) and after an ACK of the master
    (ACK mode, state 5), are taken modulo 256; from 255 the pointer goes to
    0.  In the second case the handler reads the register at the new
    pointer, which must exist. *)
Theorem pointer_increment_wraps (I2CPN : list Z) (s : state) :
  ack s <> 0 ->
  (status s = 3 /\ stopf s = false) \/
  (status s = 5 /\ acked SDAP SCLP I2CPN /\
   (Z.to_nat ((rdir s + 1) mod 256) < length (registers s))%nat) ->
  exists s', USI_OVF_vect SDAP SCLP I2CPN s = Ok s' /\
    rdir s' = (rdir s + 1) mod 256 /\
    0 <= rdir s' < 256 /\
    (rdir s = 255 -> rdir s' = 0).
Proof.
  intros Hak Hcase.
  assert (exists s', USI_OVF_vect SDAP SCLP I2CPN s = Ok s' /\
            rdir s' = u8 (rdir s + 1)) as (s' & Hrun & Hrd).
  { destruct Hcase as [[Hst Hp]|(Hst & (pins & later & -> & Hsda & Hscl) & Hin)].
    - enter s. handle.
      destruct (Z.eqb_spec ak0 0) as [|_]; [contradiction|].
      red_state. rewrite Hp. red_state. eexists. split; reflexivity.
    - enter s. handle.
      destruct (Z.eqb_spec ak0 0) as [|_]; [contradiction|].
      red_state. rewrite Hsda, Hscl. red_state.
      destruct (lookup_lt_is_Some_2 regs0 _ Hin) as [b Hb].
      change ((rd0 + 1) mod 256) with (u8 (rd0 + 1)) in Hb.
      rewrite (load8_ok _ _ _ Hb). red_state.
      eexists. split; reflexivity. }
  exists s'. split; [assumption|]. rewrite Hrd.
  split; [reflexivity|]. split; [apply u8_range|].
  intros ->. reflexivity.
Qed.

End EngineFacts.

(** * The example configuration *)

Lemma numbered_ready : ready numbered.
Proof. unfold ready. vm_compute. auto. Qed.

Lemma ACK_acked : acked 0 2 ACK.
Proof. exists 0, [0]. repeat split. Qed.

Lemma NACK_nacked : nacked 0 2 NACK.
Proof. exists 1, [0]. repeat split. Qed.

Lemma numbered_in_range x : (Z.to_nat (u8 x) < length (registers numbered))%nat.
Proof.
  pose proof (u8_range x). change (length (registers numbered)) with 256%nat.
  lia.
Qed.

Lemma multi_byte_write_witness :
  ready numbered /\
  exists s', run 0 2 (write_events 0x40 3 [0xAB; 0xCD]) numbered = Ok (s', []) /\
    registers s' !! 3%nat = Some 0xAB /\ registers s' !! 4%nat = Some 0xCD /\
    rdir s' = 5.
Proof.
  split; [exact numbered_ready|].
  destruct (multi_byte_write 0 2 numbered 0x40 3 [0xAB; 0xCD])
    as (s' & Hrun & Hin & _ & _ & Hrd & _).
  - exact numbered_ready.
  - reflexivity.
  - reflexivity.
  - lia.
  - intros i _. apply numbered_in_range.
  - exists s'. split; [exact Hrun|]. split; [|split].
    + apply (Hin 0); cbn; lia.
    + apply (Hin 1); cbn; lia.
    + exact Hrd.
Defined.

(** C2: in the example scenario the read returns register 4, the one
    after the register that was written; with the stop condition flagged
    before the ninth clock of the data byte it returns register 0.  In
    neither case is the written 0xAB returned. *)
Lemma example_scenario_read :
  (exists s, run 0 2 (write_events 0x40 3 [0xAB] ++ [STOP]
                      ++ read_events 0x41 [] ++ byte_out NACK) numbered
             = Ok (s, [4]) /\ registers s !! 3%nat = Some 0xAB) /\
  (exists s, run 0 2 (START :: byte_in 0x40 ++ byte_in 3
                      ++ [OVF 0xAB []; STOP; OVF 0 []]
                      ++ read_events 0x41 [] ++ byte_out NACK) numbered
             = Ok (s, [0]) /\ registers s !! 3%nat = Some 0xAB) /\
  [4] <> [0xAB] /\ [0] <> [0xAB].
Proof.
  split; [|split; [|split; discriminate]].
  - eexists. split; [vm_compute; reflexivity|reflexivity].
  - eexists. split; [vm_compute; reflexivity|reflexivity].
Qed.

Lemma read_after_write_witness :
  ready numbered /\ Forall (acked 0 2) [ACK] /\
  exists s1 s2,
    run 0 2 (write_events 0x40 3 [0xAB]) numbered = Ok (s1, []) /\
    run 0 2 ([STOP] ++ read_events 0x41 [ACK]) s1 = Ok (s2, [4; 5]).
Proof.
  split; [exact numbered_ready|].
  split; [constructor; [exact ACK_acked|constructor]|].
  destruct (read_after_write 0 2 numbered 0x40 0x41 3 [0xAB] true [ACK])
    as (s1 & s2 & out & Hrun1 & Hrun2 & Hlen & Hout & _).
  - exact numbered_ready.
  - reflexivity.
  - reflexivity.
  - reflexivity.
  - reflexivity.
  - lia.
  - constructor; [exact ACK_acked|constructor].
  - intros i _. apply numbered_in_range.
  - intros j _. apply numbered_in_range.
  - exists s1, s2. split; [exact Hrun1|]. rewrite Hrun2. do 2 f_equal.
    assert (Hregs : registers s1 = <[3%nat := 0xAB]> (registers numbered)).
    { vm_compute in Hrun1. injection Hrun1 as <-. reflexivity. }
    pose proof (Hout 0 ltac:(cbn; lia)) as H0.
    pose proof (Hout 1 ltac:(cbn; lia)) as H1.
    rewrite Hregs in H0, H1.
    destruct out as [|b0 [|b1 [|b2 out]]]; try discriminate Hlen.
    cbn in H0, H1. injection H0 as ->. injection H1 as ->. reflexivity.
Defined.

(** C3: a read that starts at pointer 3 and is ended by a NACK on its
    first byte leaves the pointer at 0, not at 3. *)
Lemma nack_on_first_byte_example :
  exists s1 s2,
    run 0 2 (write_events 0x40 3 []) numbered = Ok (s1, []) /\ rdir s1 = 3 /\
    run 0 2 (read_events 0x41 [] ++ byte_out NACK) s1 = Ok (s2, [3]) /\
    rdir s2 = 0 /\ rdir s2 <> 3 + 1 - 1.
Proof.
  eexists. eexists.
  split; [vm_compute; reflexivity|]. split; [reflexivity|].
  split; [vm_compute; reflexivity|]. split; [reflexivity|].
  cbn. lia.
Qed.

Lemma nack_ends_read_witness :
  ready numbered /\ Forall (acked 0 2) [ACK] /\ nacked 0 2 NACK /\
  exists s',
    run 0 2 (read_events 0x41 [ACK] ++ byte_out NACK) numbered = Ok (s', [0; 1]) /\
    status s' = 0 /\ rdir s' = 0 /\ oie s' = false.
Proof.
  split; [exact numbered_ready|].
  split; [constructor; [exact ACK_acked|constructor]|].
  split; [exact NACK_nacked|].
  destruct (nack_ends_read 0 2 numbered 0x41 [ACK] NACK)
    as (s' & out & Hrun & Hlen & Hout & Hst & Hrd & Ho & _).
  - exact numbered_ready.
  - cbn. lia.
  - reflexivity.
  - reflexivity.
  - constructor; [exact ACK_acked|constructor].
  - exact NACK_nacked.
  - intros j _. apply numbered_in_range.
  - exists s'. split; [|auto]. rewrite Hrun. do 2 f_equal.
    pose proof (Hout 0 ltac:(cbn; lia)) as H0.
    pose proof (Hout 1 ltac:(cbn; lia)) as H1.
    destruct out as [|b0 [|b1 [|b2 out]]]; try discriminate Hlen.
    cbn in H0, H1. injection H0 as ->. injection H1 as ->. reflexivity.
Defined.

(** C5: a start condition that follows the address byte of a write finds
    the engine in state 1 and leaves it there. *)
Lemma start_after_address_example :
  exists s,
    run 0 2 (START :: byte_in 0x40 ++ [START]) example_slave = Ok (s, []) /\
    status s = 1 /\ status s <> 0.
Proof.
  eexists. split; [vm_compute; reflexivity|]. split; [reflexivity|].
  cbn. lia.
Qed.

Lemma address_mismatch_ignored_witness :
  let s := overflowed 0x42 example_slave in
  status s = 0 /\ ack s = 0 /\ Z.shiftr (USIDR s) 1 <> direction s /\
  exists s', USI_OVF_vect 0 2 [] s = Ok s' /\
    status s' = 0 /\ rdir s' = 0 /\ ack s' = 0 /\
    registers s' = registers example_slave /\
    Z.testbit (I2CD s') 0 = false.
Proof.
  cbv zeta.
  split; [reflexivity|]. split; [reflexivity|].
  split; [vm_compute; discriminate|].
  destruct (address_mismatch_ignored 0 2 [] (overflowed 0x42 example_slave))
    as (s' & Hrun & Hst & Hrd & Hak & Hregs & _ & _ & _ & Hsda & _).
  - lia.
  - lia.
  - reflexivity.
  - reflexivity.
  - vm_compute. discriminate.
  - exists s'. split; [exact Hrun|].
    rewrite Hst, Hrd, Hak, Hregs, Hsda. repeat split.
Defined.

(** C8: a write transaction ended by a stop condition after the ninth
    clock of its last byte leaves the pointer at 4, one past the last
    register written, and the read that follows starts at register 4, not
    at register 0. *)
Lemma stop_after_write_example :
  exists s1 s2,
    run 0 2 (write_events 0x40 3 [0xAB] ++ [STOP]) numbered = Ok (s1, []) /\
    rdir s1 = 4 /\ rdir s1 <> 0 /\ status s1 = 2 /\
    registers s1 !! 0%nat = Some 0 /\
    run 0 2 (read_events 0x41 []) s1 = Ok (s2, [4]) /\ [4] <> [0].
Proof.
  eexists. eexists.
  split; [vm_compute; reflexivity|]. split; [reflexivity|].
  split; [cbn; lia|]. split; [reflexivity|]. split; [reflexivity|].
  split; [vm_compute; reflexivity|]. discriminate.
Qed.

Lemma stop_flag_resets_pointer_witness :
  ack stop_seen <> 0 /\ status stop_seen = 3 /\ stopf stop_seen = true /\
  rdir stop_seen = 3 /\
  exists s' s'',
    USI_OVF_vect 0 2 [] stop_seen = Ok s' /\ rdir s' = 0 /\ status s' = 0 /\
    oie s' = false /\
    run 0 2 (read_events 0x41 []) s' = Ok (s'', [0]).
Proof.
  split; [vm_compute; discriminate|]. split; [reflexivity|].
  split; [reflexivity|]. split; [reflexivity|].
  destruct (stop_flag_resets_pointer 0 2 [] stop_seen)
    as [(s' & Hrun & Hrd & Hst & Ho & _ & Hread) _].
  - vm_compute. discriminate.
  - reflexivity.
  - reflexivity.
  - destruct (Hread 0x41 0) as (s'' & Hrun' & _).
    + reflexivity.
    + reflexivity.
    + reflexivity.
    + reflexivity.
    + exists s', s''. auto.
Defined.

Lemma pointer_increment_wraps_witness :
  ack at_last_register <> 0 /\ status at_last_register = 3 /\
  stopf at_last_register = false /\ rdir at_last_register = 255 /\
  exists s', USI_OVF_vect 0 2 [] at_last_register = Ok s' /\ rdir s' = 0.
Proof.
  split; [vm_compute; discriminate|]. split; [reflexivity|].
  split; [reflexivity|]. split; [reflexivity|].
  destruct (pointer_increment_wraps 0 2 [] at_last_register)
    as (s' & Hrun & _ & _ & Hwrap).
  - vm_compute. discriminate.
  - left. split; reflexivity.
  - exists s'. split; [exact Hrun|]. apply Hwrap. reflexivity.
Defined.

(** * Further properties of the typed accessors *)

Lemma store8_err regs i b :
  (length regs <= Z.to_nat i)%nat -> store8 regs i b = Err OutOfBounds.
Proof.
  intros H. unfold store8.
  destruct (Nat.ltb_spec (Z.to_nat i) (length regs)); [lia|reflexivity].
Qed.

Lemma store_bytes_err bs : forall b regs i,
  0 <= i -> (length regs < Z.to_nat i + S (length bs))%nat ->
  store_bytes regs i (b :: bs) = Err OutOfBounds.
Proof.
  induction bs as [|b' bs IH]; intros b regs i Hi Hlen; cbn [length] in Hlen;
    cbn [store_bytes];
    (destruct (Nat.ltb_spec (Z.to_nat i) (length regs)) as [Hin|Hout];
     [|now rewrite store8_err]).
  - lia.
  - rewrite store8_ok by assumption. cbn [mbind result_bind].
    apply IH; [lia|]. rewrite length_insert. lia.
Qed.

Lemma load_bytes_S n regs i :
  load_bytes (S n) regs i
  = (b ← load8 regs i; bs ← load_bytes n regs (i + 1); Ok (b :: bs)).
Proof. reflexivity. Qed.

Lemma load_bytes_err n : forall regs i,
  0 <= i -> (length regs < Z.to_nat i + S n)%nat ->
  load_bytes (S n) regs i = Err OutOfBounds.
Proof.
  induction n as [|n IH]; intros regs i Hi Hlen; rewrite load_bytes_S;
    unfold load8;
    (destruct (regs !! Z.to_nat i) as [b|] eqn:Hb; [|reflexivity]);
    apply lookup_lt_Some in Hb.
  - lia.
  - cbn [mbind result_bind]. rewrite IH; [reflexivity|lia|lia].
Qed.

Lemma load_bytes_in_range n : forall regs i,
  0 <= i -> (Z.to_nat i + n <= length regs)%nat ->
  exists bs, load_bytes n regs i = Ok bs.
Proof.
  induction n as [|n IH]; intros regs i Hi Hlen; [now exists []|].
  cbn [load_bytes].
  destruct (lookup_lt_is_Some_2 regs (Z.to_nat i)) as [b Hb]; [lia|].
  rewrite (load8_ok _ _ _ Hb). cbn [mbind result_bind].
  destruct (IH regs (i + 1)) as [bs Hbs]; [lia|lia|].
  rewrite Hbs. cbn [mbind result_bind]. now exists (b :: bs).
Qed.

(** X1: the 16-bit and 32-bit accessors stay inside the register file
    exactly when all their bytes do: a save or a read at [dir] reaches
    outside the array as soon as [dir + 2] (resp. [dir + 4]) exceeds its
    size; the code has no check of its own. *)
Theorem wide_access_bounds (data dir : Z) (s : state) :
  0 <= dir ->
  (usi_i2c_save_registers_u16 data dir s = Err OutOfBounds
   <-> (length (registers s) < Z.to_nat dir + 2)%nat) /\
  (usi_i2c_read_registers_u16 dir s = Err OutOfBounds
   <-> (length (registers s) < Z.to_nat dir + 2)%nat) /\
  (usi_i2c_save_registers_u32 data dir s = Err OutOfBounds
   <-> (length (registers s) < Z.to_nat dir + 4)%nat) /\
  (usi_i2c_read_registers_u32 dir s = Err OutOfBounds
   <-> (length (registers s) < Z.to_nat dir + 4)%nat).
Proof.
  intros Hdir.
  assert (Hsave : forall n x,
    save (S n) x dir s = Err OutOfBounds
    <-> (length (registers s) < Z.to_nat dir + S n)%nat).
  { intros n x. split.
    - intros Herr.
      destruct (Nat.lt_ge_cases (length (registers s)) (Z.to_nat dir + S n))
        as [Hlt|Hge]; [assumption|].
      destruct (save_ok (S n) x dir s Hdir Hge) as (s' & Hs & _).
      rewrite Hs in Herr. discriminate.
    - intros Hlt. unfold save, store_native. cbn [le_bytes].
      rewrite store_bytes_err; [reflexivity|assumption|].
      now rewrite length_le_bytes. }
  assert (Hload : forall n,
    load_native (S n) (registers s) dir = Err OutOfBounds
    <-> (length (registers s) < Z.to_nat dir + S n)%nat).
  { intros n. split.
    - intros Herr.
      destruct (Nat.lt_ge_cases (length (registers s)) (Z.to_nat dir + S n))
        as [Hlt|Hge]; [assumption|].
      destruct (load_bytes_in_range (S n) (registers s) dir Hdir Hge) as [bs Hbs].
      unfold load_native in Herr. rewrite Hbs in Herr. discriminate.
    - intros Hlt. unfold load_native.
      now rewrite load_bytes_err. }
  split; [apply (Hsave 1%nat)|]. split; [apply (Hload 1%nat)|].
  split; [apply (Hsave 3%nat)|apply (Hload 3%nat)].
Qed.

(** X2: the 8-bit unsigned accessors round-trip: a value in [0, 256)
    saved at an index inside the register file is read back unchanged. *)
Theorem u8_round_trip (data dir : Z) (s : state) :
  0 <= data < 2 ^ 8 -> 0 <= dir -> (Z.to_nat dir < length (registers s))%nat ->
  exists s', usi_i2c_save_registers_u8 data dir s = Ok s' /\
    usi_i2c_read_registers_u8 dir s' = Ok data.
Proof.
  intros Hd Hdir Hlen.
  unfold usi_i2c_save_registers_u8, usi_i2c_read_registers_u8.
  destruct (save_ok 1 data dir s Hdir) as (s' & Hs & _ & Hl); [lia|].
  exists s'. split; [exact Hs|]. rewrite Hl. f_equal.
  apply Z.mod_small. exact Hd.
Qed.

(** X3: the 8-bit signed accessors round-trip: a value in [-128, 128)
    saved at an index inside the register file is read back unchanged. *)
Theorem s8_round_trip (data dir : Z) (s : state) :
  - 2 ^ 7 <= data < 2 ^ 7 -> 0 <= dir ->
  (Z.to_nat dir < length (registers s))%nat ->
  exists s', usi_i2c_save_registers_s8 data dir s = Ok s' /\
    usi_i2c_read_registers_s8 dir s' = Ok data.
Proof.
  intros Hd Hdir Hlen.
  unfold usi_i2c_save_registers_s8, usi_i2c_read_registers_s8.
  destruct (save_ok 1 data dir s Hdir) as (s' & Hs & _ & Hl); [lia|].
  exists s'. split; [exact Hs|]. rewrite Hl. cbn [mbind result_bind].
  f_equal. unfold to_signed. change (8 * Z.of_nat 1) with 8.
  rewrite Zplus_mod_idemp_l, Z.mod_small; lia.
Qed.

Lemma lor_shiftl_add a b : 0 <= a < 2 ^ 8 -> Z.lor a (Z.shiftl b 8) = a + b * 2 ^ 8.
Proof.
  intros Ha. rewrite <- Z.shiftl_mul_pow2 by lia.
  assert (Hdisj : Z.land a (Z.shiftl b 8) = 0).
  { apply Z.bits_inj'. intros i Hi. rewrite Z.land_spec, Z.bits_0.
    destruct (Z.ltb_spec i 8).
    - rewrite Z.shiftl_spec_low by lia. apply andb_false_r.
    - rewrite <- (Z.mod_small a (2 ^ 8)) by lia.
      now rewrite Z.mod_pow2_bits_high by lia. }
  rewrite <- Z.lxor_lor by assumption.
  symmetry. now apply Z.add_nocarry_lxor.
Qed.

Lemma byte_of_0 x : byte_of x 0 = x mod 2 ^ 8.
Proof. unfold byte_of. rewrite Z.shiftr_0_r. now rewrite <- Z.land_ones by lia. Qed.

Lemma byte_of_range x i : 0 <= byte_of x i < 2 ^ 8.
Proof.
  unfold byte_of. change 255 with (Z.ones 8). rewrite Z.land_ones by lia.
  apply Z.mod_pos_bound. reflexivity.
Qed.

Lemma byte_of_top x i :
  0 <= i -> 0 <= x < 2 ^ (8 * i + 8) -> byte_of x i = x / 2 ^ (8 * i).
Proof.
  intros Hi Hx. unfold byte_of. change 255 with (Z.ones 8).
  rewrite Z.land_ones, Z.shiftr_div_pow2 by lia.
  apply Z.mod_small. split.
  - apply Z.div_pos; [lia|apply Z.pow_pos_nonneg; lia].
  - apply Z.div_lt_upper_bound; [apply Z.pow_pos_nonneg; lia|].
    rewrite <- Z.pow_add_r by lia. apply Hx.
Qed.

(** X4: for every 16-bit value [data] and every index inside the register
    file, the unsigned 16-bit save accessor leaves the high byte
    [data / 256] at [dir] and the low byte [data mod 256] at [dir + 1]
    (big-endian order for the bus master), and the read accessor then
    returns [data / 256 + (data mod 256) * 256], the value with its two
    bytes exchanged. *)
Theorem u16_save_layout_and_readback (data dir : Z) (s : state) :
  0 <= data < 2 ^ 16 -> 0 <= dir ->
  (Z.to_nat dir + 2 <= length (registers s))%nat ->
  exists s', usi_i2c_save_registers_u16 data dir s = Ok s' /\
    registers s' !! Z.to_nat dir = Some (data / 2 ^ 8) /\
    registers s' !! (Z.to_nat dir + 1)%nat = Some (data mod 2 ^ 8) /\
    usi_i2c_read_registers_u16 dir s' = Ok (data / 2 ^ 8 + data mod 2 ^ 8 * 2 ^ 8).
Proof.
  intros Hd Hdir Hlen.
  unfold usi_i2c_save_registers_u16, usi_i2c_read_registers_u16.
  destruct (save_ok 2 (swap_u16 data) dir s Hdir Hlen) as (s' & Hs & Hb & Hl).
  exists s'. split; [exact Hs|].
  rewrite swap_u16_bytes in Hb.
  rewrite (byte_of_top data 1), byte_of_0 in Hb by lia.
  change (2 ^ (8 * 1)) with (2 ^ 8) in Hb.
  split; [|split].
  - rewrite <- (Nat.add_0_r (Z.to_nat dir)). apply (Hb 0%nat). lia.
  - apply (Hb 1%nat). lia.
  - rewrite Hl, <- le_value_le_bytes, swap_u16_bytes.
    rewrite (byte_of_top data 1), byte_of_0 by lia.
    cbn [le_value]. rewrite Z.shiftl_0_l, Z.lor_0_r.
    f_equal. apply lor_shiftl_add.
    change (2 ^ (8 * 1)) with (2 ^ 8).
    split; [apply Z.div_pos; lia|apply Z.div_lt_upper_bound; lia].
Qed.

Ltac drop_negative_bits :=
  repeat match goal with
  | |- context [Z.testbit ?a ?n] => rewrite (Z.testbit_neg_r a n) by lia
  end;
  same_bit.

Lemma swap_u32_bytes data :
  le_bytes 4 (swap_u32 data)
  = [byte_of data 3; byte_of data 2; byte_of data 1; byte_of data 0].
Proof.
  unfold swap_u32, to_unsigned, byte_of. cbn [le_bytes].
  rewrite !Z.shiftr_shiftr by lia. rewrite Z.shiftr_0_r.
  change 255 with (Z.ones 8). change 0xFF00 with (Z.shiftl (Z.ones 8) 8).
  change 0xFF0000 with (Z.shiftl (Z.ones 8) 16).
  change 0xFF000000 with (Z.shiftl (Z.ones 8) 24).
  f_equal; [|f_equal; [|f_equal; [|f_equal]]].
  - by_bits 8; drop_negative_bits.
  - by_bits 8; drop_negative_bits.
  - by_bits 8; drop_negative_bits.
  - by_bits 8; drop_negative_bits.
Qed.

(** X5: for every value [data] and every index with four bytes inside the
    register file, the unsigned 32-bit save accessor leaves the four bytes
    of [data] most significant first at [dir .. dir + 3], and the read
    accessor then returns the value whose least significant byte is the
    most significant byte of [data], and so on: the bytes in reverse. *)
Theorem u32_save_layout_and_readback (data dir : Z) (s : state) :
  0 <= dir -> (Z.to_nat dir + 4 <= length (registers s))%nat ->
  exists s', usi_i2c_save_registers_u32 data dir s = Ok s' /\
    registers s' !! Z.to_nat dir = Some (byte_of data 3) /\
    registers s' !! (Z.to_nat dir + 1)%nat = Some (byte_of data 2) /\
    registers s' !! (Z.to_nat dir + 2)%nat = Some (byte_of data 1) /\
    registers s' !! (Z.to_nat dir + 3)%nat = Some (byte_of data 0) /\
    usi_i2c_read_registers_u32 dir s'
    = Ok (byte_of data 3 + byte_of data 2 * 2 ^ 8
          + byte_of data 1 * 2 ^ 16 + byte_of data 0 * 2 ^ 24).
Proof.
  intros Hdir Hlen.
  unfold usi_i2c_save_registers_u32, usi_i2c_read_registers_u32.
  destruct (save_ok 4 (swap_u32 data) dir s Hdir Hlen) as (s' & Hs & Hb & Hl).
  exists s'. split; [exact Hs|].
  rewrite swap_u32_bytes in Hb.
  split; [|split; [|split; [|split]]].
  - rewrite <- (Nat.add_0_r (Z.to_nat dir)). apply (Hb 0%nat). lia.
  - apply (Hb 1%nat). lia.
  - apply (Hb 2%nat). lia.
  - apply (Hb 3%nat). lia.
  - rewrite Hl, <- le_value_le_bytes, swap_u32_bytes.
    cbn [le_value]. rewrite Z.shiftl_0_l, Z.lor_0_r.
    pose proof (byte_of_range data 0). pose proof (byte_of_range data 1).
    pose proof (byte_of_range data 2). pose proof (byte_of_range data 3).
    rewrite (lor_shiftl_add (byte_of data 1)) by assumption.
    rewrite (lor_shiftl_add (byte_of data 2)) by assumption.
    rewrite (lor_shiftl_add (byte_of data 3)) by assumption.
    f_equal. lia.
Qed.

Lemma swap_u16_value data :
  0 <= data < 2 ^ 16 -> swap_u16 data = data / 2 ^ 8 + data mod 2 ^ 8 * 2 ^ 8.
Proof.
  intros Hd. rewrite <- swap_u16_range.
  change (2 ^ 16) with (2 ^ (8 * Z.of_nat 2)).
  rewrite <- le_value_le_bytes, swap_u16_bytes.
  rewrite (byte_of_top data 1), byte_of_0 by lia.
  cbn [le_value]. rewrite Z.shiftl_0_l, Z.lor_0_r.
  apply lor_shiftl_add. change (2 ^ (8 * 1)) with (2 ^ 8).
  split; [apply Z.div_pos; lia|apply Z.div_lt_upper_bound; lia].
Qed.

Lemma swap_u16_involutive data :
  0 <= data < 2 ^ 16 -> swap_u16 (swap_u16 data) = data.
Proof.
  intros Hd.
  assert (Hhi : 0 <= data / 2 ^ 8 < 2 ^ 8)
    by (split; [apply Z.div_pos; lia|apply Z.div_lt_upper_bound; lia]).
  assert (Hlo : 0 <= data mod 2 ^ 8 < 2 ^ 8) by (apply Z.mod_pos_bound; lia).
  rewrite (swap_u16_value data Hd).
  rewrite swap_u16_value by lia.
  rewrite Z.div_add, Z.mod_add by lia.
  rewrite (Z.div_small (data / 2 ^ 8)), (Z.mod_small (data / 2 ^ 8)) by lia.
  rewrite (Z.div_mod data (2 ^ 8)) at 3 by lia. lia.
Qed.

(** X6: the 16-bit unsigned accessors compose to the identity only in
    pairs: saving a 16-bit value, reading it back, saving what was read at
    the same index and reading again returns the original value, and the
    register file then holds it least significant byte first. *)
Theorem u16_double_round_trip (data dir : Z) (s : state) :
  0 <= data < 2 ^ 16 -> 0 <= dir ->
  (Z.to_nat dir + 2 <= length (registers s))%nat ->
  exists s1 v s2,
    usi_i2c_save_registers_u16 data dir s = Ok s1 /\
    usi_i2c_read_registers_u16 dir s1 = Ok v /\
    usi_i2c_save_registers_u16 v dir s1 = Ok s2 /\
    usi_i2c_read_registers_u16 dir s2 = Ok data /\
    registers s2 !! Z.to_nat dir = Some (data mod 2 ^ 8) /\
    registers s2 !! (Z.to_nat dir + 1)%nat = Some (data / 2 ^ 8).
Proof.
  intros Hd Hdir Hlen.
  destruct (read_u16_after_save_u16 data dir s Hdir Hlen)
    as (s1 & Hs1 & _ & _ & Hr1).
  assert (Hlen1 : (Z.to_nat dir + 2 <= length (registers s1))%nat).
  { unfold usi_i2c_save_registers_u16, save, store_native in Hs1.
    destruct (store_bytes (registers s) dir (le_bytes 2 (swap_u16 data)))
      as [regs1|] eqn:Hst; [|discriminate].
    cbn [mbind result_bind] in Hs1. injection Hs1 as <-.
    apply store_bytes_spec in Hst as (Hl & _); [|assumption].
    cbn [registers set_registers]. lia. }
  destruct (read_u16_after_save_u16 (swap_u16 data) dir s1 Hdir Hlen1)
    as (s2 & Hs2 & Hb0 & Hb1 & Hr2).
  exists s1, (swap_u16 data), s2.
  rewrite swap_u16_involutive in Hr2 by assumption.
  assert (Hw : 0 <= swap_u16 data < 2 ^ 16).
  { rewrite <- swap_u16_range. apply Z.mod_pos_bound. lia. }
  rewrite (byte_of_top _ 1) in Hb0 by lia. rewrite byte_of_0 in Hb1.
  change (2 ^ (8 * 1)) with (2 ^ 8) in Hb0.
  rewrite (swap_u16_value data Hd) in Hb0, Hb1.
  assert (Hhi : 0 <= data / 2 ^ 8 < 2 ^ 8)
    by (split; [apply Z.div_pos; lia|apply Z.div_lt_upper_bound; lia]).
  rewrite Z.div_add, (Z.div_small (data / 2 ^ 8)) in Hb0 by lia.
  rewrite Z.mod_add, (Z.mod_small (data / 2 ^ 8)) in Hb1 by lia.
  repeat split; assumption.
Qed.

Lemma save_frame n x dir s s' :
  0 <= dir -> save n x dir s = Ok s' ->
  length (registers s') = length (registers s) /\
  (forall j, (j < Z.to_nat dir)%nat \/ (Z.to_nat dir + n <= j)%nat ->
             registers s' !! j = registers s !! j) /\
  status s' = status s /\ rdir s' = rdir s /\ ack s' = ack s /\
  direction s' = direction s /\ USIDR s' = USIDR s /\ USISR s' = USISR s /\
  USICR s' = USICR s /\ I2CD s' = I2CD s /\ I2CP s' = I2CP s.
Proof.
  intros Hdir Hs. unfold save, store_native in Hs.
  destruct (store_bytes (registers s) dir (le_bytes n x)) as [regs'|] eqn:Hst;
    [|discriminate].
  cbn [mbind result_bind] in Hs. injection Hs as <-.
  apply store_bytes_spec in Hst as (Hl & _ & Hout); [|assumption].
  rewrite length_le_bytes in Hout.
  cbn [registers status rdir ack direction USIDR USISR USICR I2CD I2CP
       set_registers].
  repeat split; assumption.
Qed.

(** X7: a save accessor of [n] bytes (1 for the 8-bit, 2 for the 16-bit,
    4 for the 32-bit accessors, signed or unsigned) that stays inside the
    register file changes the [n] registers from [dir] on and nothing
    else: every other register, the size of the register file, the state
    of the protocol engine and the I/O registers are as before. *)
Theorem save_changes_only_its_bytes (n : nat) (data dir : Z) (s s' : state) :
  0 <= dir ->
  (n = 1%nat /\ (usi_i2c_save_registers_u8 data dir s = Ok s' \/
                 usi_i2c_save_registers_s8 data dir s = Ok s')) \/
  (n = 2%nat /\ (usi_i2c_save_registers_u16 data dir s = Ok s' \/
                 usi_i2c_save_registers_s16 data dir s = Ok s')) \/
  (n = 4%nat /\ (usi_i2c_save_registers_u32 data dir s = Ok s' \/
                 usi_i2c_save_registers_s32 data dir s = Ok s')) ->
  length (registers s') = length (registers s) /\
  (forall j, (j < Z.to_nat dir)%nat \/ (Z.to_nat dir + n <= j)%nat ->
             registers s' !! j = registers s !! j) /\
  status s' = status s /\ rdir s' = rdir s /\ ack s' = ack s /\
  direction s' = direction s /\ USIDR s' = USIDR s /\ USISR s' = USISR s /\
  USICR s' = USICR s /\ I2CD s' = I2CD s /\ I2CP s' = I2CP s.
Proof.
  intros Hdir [[-> [H|H]]|[[-> [H|H]]|[-> [H|H]]]];
    eapply save_frame; try exact Hdir; exact H.
Qed.

(** * Further properties of the protocol engine *)

Ltac split_ifs :=
  repeat match goal with
  | |- context [if ?c then _ else _] => destruct c eqn:?
  end.

Section MoreEngineFacts.

Variables SDAP SCLP : Z.

Lemma bv_same_bit n : 0 <= n -> Z.testbit (bv n) n = true.
Proof.
  intros Hn. unfold bv. rewrite Z.shiftl_spec by assumption.
  now rewrite Z.sub_diag.
Qed.

(** X8: [usi_i2c_slave(dir)] stores the slave address, enables the start
    interrupt and nothing else in USICR but the two-wire mode with external
    clock, clears the start, overflow and stop flags, and releases SDA and
    SCL (direction and port bits cleared).  It does not touch the state of
    the engine: status, pointer, ACK flag and register file are what they
    were, also when it is called again in the middle of a transaction. *)
Theorem usi_i2c_slave_postcondition (dir : Z) (s : state) :
  0 <= SDAP -> 0 <= SCLP ->
  let s' := usi_i2c_slave SDAP SCLP dir s in
  direction s' = dir /\
  USICR s' = 0xA8 /\ sie s' = true /\ oie s' = false /\
  Z.testbit (USISR s') USISIF = false /\ Z.testbit (USISR s') USIOIF = false /\
  stopf s' = false /\
  Z.testbit (I2CD s') SDAP = false /\ Z.testbit (I2CD s') SCLP = false /\
  Z.testbit (I2CP s') SDAP = false /\ Z.testbit (I2CP s') SCLP = false /\
  status s' = status s /\ rdir s' = rdir s /\ ack s' = ack s /\
  registers s' = registers s.
Proof.
  intros Hsda Hscl. cbv zeta.
  destruct s as [st0 rd0 ak0 regs0 dir0 dr0 sr0 cr0 dd0 pp0].
  unfold usi_i2c_slave. red_state.
  assert (Hflag : forall n, 5 <= n <= 7 ->
    Z.testbit (USISR_written
      (Z.lor (Z.lor (Z.lor (bv USISIF) (bv USIOIF)) (bv USIPF)) (bv USIDC)) sr0) n
    = false).
  { intros n Hn. unfold USISR_written.
    change (Z.lor (Z.lor (Z.lor (bv USISIF) (bv USIOIF)) (bv USIPF)) (bv USIDC))
      with 0xF0.
    rewrite Z.lor_spec, !Z.land_spec, Z.lnot_spec, Z.land_spec by lia.
    assert (n = 5 \/ n = 6 \/ n = 7) as [->|[->| ->]] by lia;
      cbn; now rewrite andb_false_r. }
  assert (Hpin : forall x p, 0 <= p -> (p = SDAP \/ p = SCLP) ->
    Z.testbit (Z.land x (Z.lnot (Z.lor (bv SDAP) (bv SCLP)))) p = false).
  { intros x p Hp Hor. rewrite Z.land_spec, Z.lnot_spec, Z.lor_spec by assumption.
    destruct Hor as [-> | ->]; rewrite bv_same_bit by assumption;
      rewrite ?orb_true_r; cbn; apply andb_false_r. }
  repeat split; try reflexivity.
  - apply Hflag. unfold USISIF. lia.
  - apply Hflag. unfold USIOIF. lia.
  - apply Hflag. unfold USIPF. lia.
  - apply Hpin; auto.
  - apply Hpin; auto.
  - apply Hpin; auto.
  - apply Hpin; auto.
Qed.

(** X9: after [usi_i2c_slave(dir)] the engine ignores the bus until a
    start condition: overflow and stop events, however many, transmit
    nothing and leave status, pointer, ACK flag and register file as they
    were. *)
Theorem idle_until_start (dir : Z) (s : state) (es : list event) :
  Forall not_start es ->
  exists s', run SDAP SCLP es (usi_i2c_slave SDAP SCLP dir s) = Ok (s', []) /\
    status s' = status s /\ rdir s' = rdir s /\ ack s' = ack s /\
    registers s' = registers s.
Proof.
  intros Hes.
  destruct (detached_silent SDAP SCLP es (usi_i2c_slave SDAP SCLP dir s) Hes)
    as (s' & Hrun & Hst & Hrd & Hak & Hregs & _).
  { destruct s as [st0 rd0 ak0 regs0 dir0 dr0 sr0 cr0 dd0 pp0]. reflexivity. }
  exists s'. split; [exact Hrun|].
  destruct s as [st0 rd0 ak0 regs0 dir0 dr0 sr0 cr0 dd0 pp0].
  repeat split; assumption.
Qed.

(** X10: an address byte whose upper seven bits equal the slave address is
    acknowledged: the handler that decodes it (state 0, not in ACK mode)
    turns SDA into an output, which pulls the line low, sets the ACK flag
    and goes to state 4 when the R/W bit is 1 and to state 1 otherwise;
    pointer, register file and interrupt enables are kept. *)
Theorem address_match_acknowledged (I2CPN : list Z) (s : state) :
  0 <= SDAP -> SDAP <> SCLP ->
  status s = 0 -> ack s = 0 -> Z.shiftr (USIDR s) 1 = direction s ->
  exists s', USI_OVF_vect SDAP SCLP I2CPN s = Ok s' /\
    status s' = (if Z.land (USIDR s) 1 =? 1 then 4 else 1) /\
    ack s' = 1 /\ rdir s' = rdir s /\ registers s' = registers s /\
    USICR s' = USICR s /\ I2CP s' = I2CP s /\
    Z.testbit (I2CD s') SDAP = true.
Proof.
  intros Hpin Hpins Hst Hak Hdir. enter s. handle.
  rewrite Z.eqb_refl.
  assert (Hsda : forall x,
    Z.testbit (Z.land (Z.lor (Z.lor x (bv SCLP)) (bv SDAP)) (Z.lnot (bv SCLP)))
              SDAP = true).
  { intros x. rewrite Z.land_spec, Z.lnot_spec, !Z.lor_spec by assumption.
    rewrite bv_same_bit, (bv_other_bit SCLP SDAP) by assumption.
    now rewrite orb_true_r. }
  destruct (Z.land dr0 1 =? 1); red_state;
    (eexists; split; [reflexivity|]); red_state; repeat split; apply Hsda.
Qed.

(** X11: the acknowledge of the slave lasts one clock: the handler that
    runs at the ninth clock of a received byte (ACK mode, state 1, 2 or 3)
    turns SDA back into an input, clears the ACK flag and leaves the
    register file alone. *)
Theorem acknowledge_released (I2CPN : list Z) (s : state) :
  0 <= SDAP -> SDAP <> SCLP ->
  ack s <> 0 -> status s = 1 \/ status s = 2 \/ status s = 3 ->
  exists s', USI_OVF_vect SDAP SCLP I2CPN s = Ok s' /\
    Z.testbit (I2CD s') SDAP = false /\ ack s' = 0 /\
    registers s' = registers s.
Proof.
  intros Hpin Hpins Hak Hst.
  assert (Hsda : forall x,
    Z.testbit (Z.land (Z.land (Z.lor x (bv SCLP)) (Z.lnot (bv SDAP)))
                      (Z.lnot (bv SCLP))) SDAP = false).
  { intros x. rewrite !Z.land_spec, !Z.lnot_spec by assumption.
    rewrite bv_same_bit by assumption. cbn.
    now rewrite andb_false_r. }
  destruct Hst as [Hst|[Hst|Hst]]; enter s; handle;
    (destruct (Z.eqb_spec ak0 0) as [|_]; [contradiction|]); red_state;
    split_ifs; red_state;
    (eexists; split; [reflexivity|]); red_state; repeat split; apply Hsda.
Qed.

(** *** What an overflow event can change *)

Lemma overflowed_fields dr s :
  status (overflowed dr s) = status s /\ rdir (overflowed dr s) = rdir s /\
  ack (overflowed dr s) = ack s /\ registers (overflowed dr s) = registers s /\
  direction (overflowed dr s) = direction s /\
  USICR (overflowed dr s) = USICR s /\ USIDR (overflowed dr s) = dr.
Proof. repeat split. Qed.

Lemma USI_OVF_vect_registers I2CPN s s' :
  USI_OVF_vect SDAP SCLP I2CPN s = Ok s' ->
  direction s' = direction s /\
  (registers s' = registers s \/
   (status s = 2 /\ ack s = 0 /\ (Z.to_nat (rdir s) < length (registers s))%nat /\
    registers s' = <[Z.to_nat (rdir s) := USIDR s]> (registers s))).
Proof.
  intros Hrun. enter s. revert Hrun. handle.
  destruct (Z.eqb_spec ak0 0) as [->|Hak]; red_state.
  - destruct (Z.eqb_spec st0 0) as [->|H0].
    { split_ifs; red_state; intros [= <-]; auto. }
    destruct (Z.eqb_spec st0 1) as [->|H1].
    { red_state. intros [= <-]; auto. }
    destruct (Z.eqb_spec st0 2) as [->|H2].
    { destruct (store8 regs0 rd0 dr0) as [regs1|] eqn:Hst; [|discriminate].
      apply store8_inv in Hst as [Hin ->].
      red_state. intros [= <-]. red_state. auto 10. }
    destruct (Z.eqb_spec st0 4) as [->|H4]; red_state; intros [= <-]; auto.
  - destruct (Z.eqb_spec st0 5) as [->|H5].
    + destruct I2CPN as [|pins later]; [discriminate|].
      destruct (negb (Z.testbit pins SDAP));
        destruct (loop_until_bit_is_clear later SCLP) as [[]|]; red_state;
        try discriminate.
      * destruct (load8 regs0 (u8 (rd0 + 1))); [|discriminate].
        red_state. intros [= <-]; auto.
      * intros [= <-]; auto.
    + red_state. destruct (Z.eqb_spec st0 3) as [->|H3].
      * red_state. split_ifs; red_state; intros [= <-]; auto.
      * destruct (Z.eqb_spec st0 4) as [->|H4].
        -- destruct (load8 regs0 rd0); [|discriminate].
           red_state. intros [= <-]; auto.
        -- red_state. intros [= <-]; auto.
Qed.

(** X12: no bus event changes the slave address, and the register file is
    changed by one kind of event only: a counter overflow that finds the
    engine in state 2 outside ACK mode with the overflow interrupt
    attached stores the received byte at the pointer.  Start and stop
    conditions, address and pointer bytes, ninth clocks and whole read
    transactions leave every register as it is. *)
Theorem register_file_written_only_by_data_bytes
    (e : event) (s s' : state) (out : list Z) :
  deliver SDAP SCLP e s = Ok (s', out) ->
  direction s' = direction s /\
  (registers s' = registers s \/
   exists dr I2CPN,
     e = OVF dr I2CPN /\ status s = 2 /\ ack s = 0 /\ oie s = true /\
     (Z.to_nat (rdir s) < length (registers s))%nat /\
     registers s' = <[Z.to_nat (rdir s) := dr]> (registers s)).
Proof.
  destruct e as [| |dr I2CPN]; unfold deliver; cbv zeta.
  - destruct (bit_is_set (USICR (raise_flag USISIF s)) USISIE);
      intros [= <- <-].
    + destruct s as [st0 rd0 ak0 regs0 dir0 dr0 sr0 cr0 dd0 pp0].
      unfold USI_START_vect. red_state.
      destruct (st0 =? 2); auto.
    + auto.
  - intros [= <- <-]. auto.
  - change (bit_is_set (USICR (overflowed dr s)) USIOIE) with (oie s).
    destruct (oie s) eqn:Ho.
    + destruct (USI_OVF_vect SDAP SCLP I2CPN (overflowed dr s)) as [s1|] eqn:Hrun;
        [|discriminate].
      cbn [mbind result_bind]. intros [= <- <-].
      apply USI_OVF_vect_registers in Hrun as [Hdir Hregs].
      split; [exact Hdir|].
      destruct Hregs as [Hsame|(Hst & Hak & Hin & Hnew)]; [left; exact Hsame|].
      right. exists dr, I2CPN. auto 10.
    + intros [= <- <-]. auto.
Qed.


(** *** Ranges kept by the handlers *)

Lemma USI_OVF_vect_well_formed I2CPN s s' :
  well_formed s -> 0 <= USIDR s < 256 ->
  USI_OVF_vect SDAP SCLP I2CPN s = Ok s' ->
  well_formed s' /\ length (registers s') = length (registers s).
Proof.
  intros (Hst & Hak & Hrd) Hdr Hrun. enter s. revert Hrun.
  pose proof (u8_range (rd0 + 1)) as Hnext.
  assert (Hcases : st0 = 0 \/ st0 = 1 \/ st0 = 2 \/ st0 = 3 \/ st0 = 4 \/ st0 = 5)
    by lia.
  unfold well_formed.
  destruct Hak as [-> | ->];
    destruct Hcases as [->|[->|[->|[->|[->| ->]]]]]; handle.
  all: try (destruct I2CPN as [|pins later]; [discriminate|];
            destruct (loop_until_bit_is_clear later SCLP) as [[]|]).
  all: split_ifs; red_state; try discriminate.
  all: try (destruct (store8 regs0 rd0 dr0) as [regs1|] eqn:Hst1;
            [apply store8_inv in Hst1 as [_ ->]|discriminate]).
  all: try (destruct (load8 regs0 rd0); [|discriminate]).
  all: try (destruct (load8 regs0 (u8 (rd0 + 1))); [|discriminate]).
  all: red_state; intros [= <-]; red_state; rewrite ?length_insert;
    repeat split; try reflexivity; try lia; auto.
  all: vm_compute; discriminate.
Qed.

(** X14: the handlers keep the protocol variables in range: from a state
    with status in 0..5, the ACK flag 0 or 1 and the pointer a byte, every
    sequence of bus events that carries bytes in the data register ends in
    such a state again, with a register file of the same size. *)
Theorem engine_stays_well_formed (es : list event) :
  forall (s s' : state) (out : list Z),
  well_formed s -> Forall byte_event es ->
  run SDAP SCLP es s = Ok (s', out) ->
  well_formed s' /\ length (registers s') = length (registers s).
Proof.
  induction es as [|e es IH]; intros s s' out Hwf Hes Hrun.
  - cbn in Hrun. injection Hrun as <- <-. auto.
  - apply Forall_cons in Hes as [He Hes]. cbn [run] in Hrun.
    destruct (deliver SDAP SCLP e s) as [[s1 o1]|] eqn:Hd; [|discriminate].
    cbn [mbind result_bind] in Hrun.
    destruct (run SDAP SCLP es s1) as [[s2 o2]|] eqn:Hr; [|discriminate].
    cbn [mbind result_bind] in Hrun. injection Hrun as <- <-.
    assert (Hstep : well_formed s1 /\ length (registers s1) = length (registers s)).
    { destruct e as [| |dr I2CPN]; unfold deliver in Hd; cbv zeta in Hd.
      - destruct (bit_is_set (USICR (raise_flag USISIF s)) USISIE);
          injection Hd as <- <-; [|exact (conj Hwf eq_refl)].
        destruct s as [st0 rd0 ak0 regs0 dir0 dr0 sr0 cr0 dd0 pp0].
        unfold well_formed, USI_START_vect in *. red_state.
        destruct (st0 =? 2); red_state; split; try reflexivity;
          repeat split; try lia; apply Hwf.
      - injection Hd as <- <-. exact (conj Hwf eq_refl).
      - change (bit_is_set (USICR (overflowed dr s)) USIOIE) with (oie s) in Hd.
        destruct (oie s).
        + destruct (USI_OVF_vect SDAP SCLP I2CPN (overflowed dr s)) as [t|] eqn:Ht;
            [|discriminate].
          cbn [mbind result_bind] in Hd. injection Hd as <- <-.
          apply USI_OVF_vect_well_formed in Ht; [exact Ht|exact Hwf|exact He].
        + injection Hd as <- <-. exact (conj Hwf eq_refl). }
    destruct Hstep as [Hwf1 Hlen1].
    destruct (IH s1 s2 o2 Hwf1 Hes Hr) as [Hwf2 Hlen2].
    split; [exact Hwf2|]. congruence.
Qed.

(** *** Address mismatch *)

Lemma isr_address_mismatch s a I2CPN rd regs dir :
  phase 0 rd 0 regs dir s -> USIDR s = a -> Z.shiftr a 1 <> dir ->
  exists s', USI_OVF_vect SDAP SCLP I2CPN s = Ok s' /\ phase 0 rd 0 regs dir s'.
Proof.
  intros [? ? ? ? ? Ho Hs Hp] Ha Hne. enter s. handle.
  destruct (Z.eqb_spec (Z.shiftr a 1) dir) as [|_]; [contradiction|].
  red_state. leave.
Qed.

Lemma isr_address_match s a I2CPN rd regs dir :
  0 <= SDAP -> SDAP <> SCLP ->
  phase 0 rd 0 regs dir s -> USIDR s = a -> Z.shiftr a 1 = dir ->
  exists s', USI_OVF_vect SDAP SCLP I2CPN s = Ok s' /\
    status s' = (if Z.land a 1 =? 1 then 4 else 1) /\ ack s' = 1 /\
    Z.testbit (I2CD s') SDAP = true.
Proof.
  intros Hpin Hpins [? ? ? ? ? Ho Hs Hp] Ha Hdir. enter s. handle.
  rewrite Z.eqb_refl.
  destruct (Z.land a 1 =? 1); red_state;
    (eexists; split; [reflexivity|]); red_state; repeat split;
    rewrite Z.land_spec, Z.lnot_spec, !Z.lor_spec by assumption;
    rewrite bv_same_bit, (bv_other_bit SCLP SDAP) by assumption;
    now rewrite orb_true_r.
Qed.

(** X15: an address mismatch does not make the engine wait for the next
    start condition: the overflow interrupt stays attached and the state
    stays 0, so the byte at the next counter overflow is decoded as an
    address again, and when its upper seven bits equal the slave address it
    is acknowledged (ACK flag set, SDA driven) in the middle of a
    transaction meant for another device. *)
Theorem mismatch_then_match (s : state) (a1 a2 : Z) :
  0 <= SDAP -> SDAP <> SCLP ->
  ready s -> Z.shiftr a1 1 <> direction s -> Z.shiftr a2 1 = direction s ->
  exists s', run SDAP SCLP [START; OVF a1 []; OVF a2 []] s = Ok (s', []) /\
    status s' = (if Z.land a2 1 =? 1 then 4 else 1) /\ ack s' = 1 /\
    Z.testbit (I2CD s') SDAP = true.
Proof.
  intros Hpin Hpins Hready Hne Heq.
  destruct (after_start SDAP SCLP s Hready) as (s0 & H0 & Hph0).
  destruct (phase_overflowed a1 _ _ _ _ _ _ Hph0) as [Hph0' Hdr0].
  destruct (isr_address_mismatch _ a1 [] _ _ _ Hph0' Hdr0 Hne)
    as (s1 & Hrun1 & Hph1).
  pose proof (deliver_OVF SDAP SCLP _ _ _ _ _ _ _ _ _ Hph0 Hrun1) as H1.
  rewrite (ph_status _ _ _ _ _ _ Hph1) in H1. cbn [negb andb Z.eqb] in H1.
  destruct (phase_overflowed a2 _ _ _ _ _ _ Hph1) as [Hph1' Hdr1].
  destruct (isr_address_match _ a2 [] _ _ _ Hpin Hpins Hph1' Hdr1 Heq)
    as (s2 & Hrun2 & Hst2 & Hak2 & Hsda).
  pose proof (deliver_OVF SDAP SCLP _ _ _ _ _ _ _ _ _ Hph1 Hrun2) as H2.
  cbn [negb andb Z.eqb] in H2.
  exists s2. split; [|auto].
  apply run_cons with (s1 := s0) (o1 := []) (o2 := []); [exact H0|].
  apply (run_two SDAP SCLP _ _ _ _ [] _ [] H1 H2).
Qed.

(** *** Accesses outside the register file *)

Lemma run_cons_err e es s x :
  deliver SDAP SCLP e s = Err x -> run SDAP SCLP (e :: es) s = Err x.
Proof. intros H. cbn [run]. now rewrite H. Qed.

Lemma run_app_err es1 : forall es2 s s1 o1 x,
  run SDAP SCLP es1 s = Ok (s1, o1) -> run SDAP SCLP es2 s1 = Err x ->
  run SDAP SCLP (es1 ++ es2) s = Err x.
Proof.
  induction es1 as [|e es1 IH]; intros es2 s s1 o1 x H1 H2.
  - cbn in H1. injection H1 as <- <-. exact H2.
  - cbn [run] in H1. rewrite <- app_comm_cons. cbn [run].
    destruct (deliver SDAP SCLP e s) as [[s0 o0]|]; [|discriminate].
    cbn [mbind result_bind] in H1 |- *.
    destruct (run SDAP SCLP es1 s0) as [[s3 o3]|] eqn:Hr; [|discriminate].
    cbn [mbind result_bind] in H1. injection H1 as <- <-.
    now rewrite (IH es2 s0 s3 o3 x Hr H2).
Qed.

Lemma deliver_OVF_err s dr I2CPN st rd ak regs dir x :
  phase st rd ak regs dir s ->
  USI_OVF_vect SDAP SCLP I2CPN (overflowed dr s) = Err x ->
  deliver SDAP SCLP (OVF dr I2CPN) s = Err x.
Proof.
  intros Hph Hrun. unfold deliver. cbv zeta.
  change (bit_is_set (USICR (overflowed dr s)) USIOIE) with (oie s).
  now rewrite (ph_oie _ _ _ _ _ _ Hph), Hrun.
Qed.

Lemma isr_data_byte_outside s I2CPN rd regs dir :
  phase 2 rd 0 regs dir s -> (length regs <= Z.to_nat rd)%nat ->
  USI_OVF_vect SDAP SCLP I2CPN s = Err OutOfBounds.
Proof.
  intros [? ? ? ? ? Ho Hs Hp] Hout. enter s. handle.
  now rewrite store8_err.
Qed.

Lemma isr_first_byte_outside s I2CPN rd regs dir :
  phase 4 rd 1 regs dir s -> (length regs <= Z.to_nat rd)%nat ->
  USI_OVF_vect SDAP SCLP I2CPN s = Err OutOfBounds.
Proof.
  intros [? ? ? ? ? Ho Hs Hp] Hout. enter s. handle.
  unfold load8. now rewrite (lookup_ge_None_2 regs (Z.to_nat rd)).
Qed.

(** X16: the engine does not check the pointer against the size of the
    register file: when the master sends a pointer byte [P] at or beyond
    the end of the array, the next data byte is stored outside the array,
    and a read transaction that follows the pointer byte loads its first
    byte from outside the array. *)
Theorem pointer_outside_register_file (s : state) (aw ar P d : Z) :
  ready s -> Z.shiftr aw 1 = direction s -> Z.land aw 1 = 0 ->
  Z.shiftr ar 1 = direction s -> Z.land ar 1 = 1 ->
  0 <= P < 256 -> (length (registers s) <= Z.to_nat P)%nat ->
  run SDAP SCLP (write_events aw P [d]) s = Err OutOfBounds /\
  run SDAP SCLP (write_events aw P [] ++ read_events ar []) s = Err OutOfBounds.
Proof.
  intros Hready Haw Hw Har Hr HP Hout.
  destruct (write_txn SDAP SCLP s aw P [] Hready Haw) as (s1 & Hrun1 & Hph1);
    [lia|assumption|cbn; intros; lia|].
  cbn [length stored] in Hph1. rewrite Z.add_0_r, u8_small in Hph1 by assumption.
  split.
  - replace (write_events aw P [d])
      with (write_events aw P [] ++ [OVF d []; OVF 0 []]).
    2:{ unfold write_events, byte_in. cbn [flat_map]. cbn [app].
        reflexivity. }
    apply run_app_err with (s1 := s1) (o1 := []); [exact Hrun1|].
    apply run_cons_err.
    destruct (phase_overflowed d _ _ _ _ _ _ Hph1) as [Hph1' _].
    apply (deliver_OVF_err _ _ _ _ _ _ _ _ _ Hph1).
    now apply (isr_data_byte_outside _ _ _ _ _ Hph1').
  - apply run_app_err with (s1 := s1) (o1 := []); [exact Hrun1|].
    destruct (after_start SDAP SCLP s1 (ready_after_write _ _ _ _ Hph1))
      as (s2 & H2 & Hph2).
    rewrite (ph_rdir _ _ _ _ _ _ Hph1), (ph_registers _ _ _ _ _ _ Hph1),
      (ph_direction _ _ _ _ _ _ Hph1), <- Har in Hph2.
    destruct (address_for_read SDAP SCLP s2 ar [] _ _ Hph2 Hr)
      as (s3 & H3 & Hph3).
    unfold read_events, byte_in. cbn [flat_map app].
    apply (run_app_err [START; OVF ar []] [OVF 0 []] s1 s3 []).
    + apply (run_two SDAP SCLP _ _ _ _ [] _ [] H2 H3).
    + apply run_cons_err.
      destruct (phase_overflowed 0 _ _ _ _ _ _ Hph3) as [Hph3' _].
      apply (deliver_OVF_err _ _ _ _ _ _ _ _ _ Hph3).
      now apply (isr_first_byte_outside _ _ _ _ _ Hph3').
Qed.

(** *** Transactions in sequence *)

(** X17: a read transaction that the master ended with a NACK leaves the
    engine ready for the next one with the pointer at 0: a read transaction
    that follows without a pointer byte transmits register 0 first. *)
Theorem read_after_nack_starts_at_zero (s : state) (a : Z)
    (acks : list (list Z)) (last : list Z) (b : Z) :
  ready s -> 0 <= rdir s < 256 ->
  Z.shiftr a 1 = direction s -> Z.land a 1 = 1 ->
  Forall (acked SDAP SCLP) acks -> nacked SDAP SCLP last ->
  (forall j, 0 <= j <= Z.of_nat (length acks) ->
             (Z.to_nat (u8 (rdir s + j)) < length (registers s))%nat) ->
  registers s !! 0%nat = Some b ->
  exists s1 out s2,
    run SDAP SCLP (read_events a acks ++ byte_out last) s = Ok (s1, out) /\
    run SDAP SCLP (read_events a []) s1 = Ok (s2, [b]) /\
    rdir s2 = 0.
Proof.
  intros Hready Hrd Ha Hr Hacks Hnack Hin Hb.
  destruct (read_txn SDAP SCLP s a acks Hready Hrd Ha Hr Hacks Hin)
    as (s0 & Hrun0 & Hph0).
  destruct (read_last SDAP SCLP s0 last _ _ _ Hph0 Hnack)
    as (s1 & Hrun1 & Hst & Hrd1 & Hak & Hregs & Hdir & Ho & Hs).
  destruct (read_txn SDAP SCLP s1 a []) as (s2 & Hrun2 & Hph2).
  - unfold ready. auto.
  - rewrite Hrd1. lia.
  - congruence.
  - assumption.
  - constructor.
  - intros j Hj. cbn [length] in Hj. replace j with 0 by lia.
    rewrite Hrd1, Hregs. apply lookup_lt_Some with (x := b). exact Hb.
  - exists s1, (window (registers s) (rdir s) (S (length acks)) ++ []), s2.
    split; [|split].
    + apply run_app with (s1 := s0); assumption.
    + rewrite Hrun2, Hrd1, Hregs. cbn [length window].
      change (Z.to_nat 0) with 0%nat. now rewrite Hb.
    + rewrite (ph_rdir _ _ _ _ _ _ Hph2), Hrd1. reflexivity.
Qed.

(** *** The bus and the application *)

(** X18: what the master writes, the application reads: after a write
    transaction with pointer byte [P], the 8-bit unsigned read accessor
    returns at index [(P + i) mod 256] the data byte number [i] (as long
    as no later byte of the same transaction went to the same index). *)
Theorem master_write_read_by_application (s : state) (a P : Z) (data : list Z) :
  ready s -> Z.shiftr a 1 = direction s -> Z.land a 1 = 0 -> 0 <= P < 256 ->
  (forall i, 0 <= i < Z.of_nat (length data) ->
             (Z.to_nat (u8 (P + i)) < length (registers s))%nat) ->
  exists s',
    run SDAP SCLP (write_events a P data) s = Ok (s', []) /\
    forall i d, 0 <= i < Z.of_nat (length data) ->
                Z.of_nat (length data) <= i + 256 ->
                data !! Z.to_nat i = Some d ->
                usi_i2c_read_registers_u8 (u8 (P + i)) s' = Ok d.
Proof.
  intros Hready Ha Hw HP Hin.
  destruct (write_txn SDAP SCLP s a P data Hready Ha) as (s' & Hrun & Hph);
    [lia|assumption|assumption|].
  exists s'. split; [exact Hrun|].
  intros i d Hi Hlast Hd.
  unfold usi_i2c_read_registers_u8, load_native. cbn [load_bytes].
  rewrite (load8_ok _ _ d).
  - cbn [mbind result_bind le_value]. now rewrite Z.shiftl_0_l, Z.lor_0_r.
  - rewrite (ph_registers _ _ _ _ _ _ Hph), <- Hd. now apply stored_lookup.
Qed.

(** X19: what the application saves, the master reads most significant
    byte first: after the unsigned 16-bit save accessor stored [data] at
    [dir], a master that sends [dir] as pointer byte and reads two bytes
    receives [data / 256] and then [data mod 256]. *)
Theorem application_save_read_by_master (s : state) (data dir aw ar : Z)
    (I2CPN : list Z) :
  ready s -> 0 <= data < 2 ^ 16 -> 0 <= dir -> dir + 1 < 256 ->
  (Z.to_nat dir + 2 <= length (registers s))%nat ->
  Z.shiftr aw 1 = direction s -> Z.land aw 1 = 0 ->
  Z.shiftr ar 1 = direction s -> Z.land ar 1 = 1 ->
  acked SDAP SCLP I2CPN ->
  exists s1 s2,
    usi_i2c_save_registers_u16 data dir s = Ok s1 /\
    run SDAP SCLP (write_events aw dir [] ++ read_events ar [I2CPN]) s1
    = Ok (s2, [data / 2 ^ 8; data mod 2 ^ 8]).
Proof.
  intros Hready Hd Hdir Hnowrap Hlen Haw Hw Har Hr Hack.
  unfold usi_i2c_save_registers_u16.
  destruct (save_ok 2 (swap_u16 data) dir s Hdir Hlen) as (s1 & Hs & Hb & _).
  destruct (save_frame _ _ _ _ _ Hdir Hs)
    as (Hlen1 & _ & Hst & Hrd & Hak & Hdir1 & _ & _ & Hcr & _).
  rewrite swap_u16_bytes in Hb.
  rewrite (byte_of_top data 1), byte_of_0 in Hb by lia.
  change (2 ^ (8 * 1)) with (2 ^ 8) in Hb.
  pose proof (Hb 0%nat ltac:(lia)) as Hb0. rewrite Nat.add_0_r in Hb0.
  pose proof (Hb 1%nat ltac:(lia)) as Hb1.
  assert (Hready1 : ready s1).
  { unfold ready, oie, sie in *. now rewrite Hst, Hak, Hcr. }
  destruct (write_txn SDAP SCLP s1 aw dir [] Hready1) as (s1' & Hrun1 & Hph1);
    [congruence|lia|lia|cbn; intros; lia|].
  cbn [length stored] in Hph1. rewrite Z.add_0_r, u8_small in Hph1 by lia.
  destruct Hph1 as [Hst' Hrd' Hak' Hregs' Hdir' Ho' Hs' Hp'].
  destruct (read_txn SDAP SCLP s1' ar [I2CPN]) as (s2 & Hrun2 & _).
  - unfold ready. auto.
  - rewrite Hrd'. lia.
  - congruence.
  - assumption.
  - constructor; [exact Hack|constructor].
  - intros j Hj. cbn [length] in Hj. rewrite Hrd', Hregs'.
    rewrite u8_small by lia. lia.
  - exists s1, s2. split; [exact Hs|].
    rewrite <- (app_nil_l [_; _]).
    apply run_app with (s1 := s1'); [exact Hrun1|].
    rewrite Hrun2, Hrd', Hregs'. cbn [length window].
    rewrite (u8_small (dir + 1)) by lia.
    replace (Z.to_nat (dir + 1)) with (Z.to_nat dir + 1)%nat by lia.
    now rewrite Hb0, Hb1.
Qed.

(** *** Flags and counter of the USI *)

Lemma clear_flags_value old :
  USISR_written (u8 (Z.lnot USICNT)) old = Z.land old (bv USIDC).
Proof.
  unfold USISR_written.
  change (u8 (Z.lnot USICNT)) with 0xF0.
  change (Z.land 0xF0 (Z.lnot (Z.land 0xF0 0xE0))) with (bv USIDC).
  change (Z.land 0xF0 0x0F) with 0. apply Z.lor_0_r.
Qed.

Lemma run_STOP es s :
  run SDAP SCLP (STOP :: es) s = run SDAP SCLP es (raise_flag USIPF s).
Proof.
  cbn [run].
  change (deliver SDAP SCLP STOP s) with (Ok (raise_flag USIPF s, @nil Z)).
  cbn [mbind result_bind].
  destruct (run SDAP SCLP es (raise_flag USIPF s)) as [[s2 o2]|]; reflexivity.
Qed.

(** X20: with the start interrupt enabled, a stop condition that is
    followed by a start condition is never seen by the engine: the start
    handler clears the stop flag together with the other flags, so that
    the two events leave exactly the state that the start condition alone
    leaves. *)
Theorem stop_before_start_is_forgotten (s : state) :
  sie s = true ->
  run SDAP SCLP [STOP; START] s = run SDAP SCLP [START] s.
Proof.
  intros Hsie.
  assert (Hd : deliver SDAP SCLP START (raise_flag USIPF s)
               = deliver SDAP SCLP START s).
  { destruct s as [st0 rd0 ak0 regs0 dir0 dr0 sr0 cr0 dd0 pp0].
    unfold deliver, USI_START_vect. red_state. rewrite Hsie.
    assert (Hsr : Z.land (Z.lor (Z.lor sr0 (bv USIPF)) (bv USISIF)) (bv USIDC)
                  = Z.land (Z.lor sr0 (bv USISIF)) (bv USIDC)).
    { rewrite !Z.land_lor_distr_l.
      change (Z.land (bv USIPF) (bv USIDC)) with 0.
      now rewrite Z.lor_0_r. }
    destruct (st0 =? 2); unfold write_USISR; red_state;
      rewrite !clear_flags_value, Hsr; reflexivity. }
  rewrite run_STOP. cbn [run]. now rewrite Hd.
Qed.

Lemma counter_written v old : Z.land (USISR_written v old) 0x0F = Z.land v 0x0F.
Proof.
  unfold USISR_written.
  change 0x0F with (Z.ones 4). change 0xF0 with (Z.shiftl (Z.ones 4) 4).
  by_bits 4; drop_negative_bits.
Qed.

Lemma counter_or x m : Z.land (Z.lor x m) 0x0F = Z.lor (Z.land x 0x0F) (Z.land m 0x0F).
Proof. apply Z.land_lor_distr_l. Qed.

Ltac count_with H0 :=
  repeat first [rewrite counter_written | rewrite counter_or | rewrite H0];
  reflexivity.

(** X21: how the handler programs the counter.  After a run in ACK mode
    the counter is 0, so that the next overflow comes after a whole byte.
    After a run outside ACK mode that set the ACK flag the counter is 14,
    so that the next overflow comes after the one clock of the ACK bit, and
    15 when the byte was a transmitted one (state 4), where it comes after
    a single clock edge; when the ACK flag was not set the counter is
    0. *)
Theorem counter_after_overflow (I2CPN : list Z) (s s' : state) :
  USI_OVF_vect SDAP SCLP I2CPN s = Ok s' ->
  Z.land (USISR s') 0x0F
  = (if ack s =? 0
     then (if ack s' =? 0 then 0 else if status s =? 4 then 15 else 14)
     else 0).
Proof.
  intros Hrun. enter s. revert Hrun. handle.
  destruct (Z.eqb_spec ak0 0) as [->|Hak]; red_state.
  - assert (H0 : Z.land (u8 (Z.land (Z.lnot sr0) (Z.lnot USICNT))) 0x0F = 0).
    { unfold u8, to_unsigned.
      rewrite <- Z.land_ones by lia. rewrite <- !Z.land_assoc.
      change (Z.land (Z.ones 8) 0x0F) with 0x0F.
      change (Z.land (Z.lnot USICNT) 0x0F) with 0. apply Z.land_0_r. }
    destruct (Z.eqb_spec st0 0) as [->|Hs0].
    { destruct (Z.shiftr dr0 1 =? dir0); [destruct (Z.land dr0 1 =? 1)|];
        red_state; intros [= <-]; red_state; count_with H0. }
    destruct (Z.eqb_spec st0 1) as [->|Hs1].
    { red_state. intros [= <-]. red_state.
      count_with H0. }
    destruct (Z.eqb_spec st0 2) as [->|Hs2].
    { destruct (store8 regs0 rd0 dr0); [|discriminate].
      red_state. intros [= <-]. red_state.
      count_with H0. }
    destruct (Z.eqb_spec st0 4) as [->|Hs4].
    { red_state. intros [= <-]. red_state.
      count_with H0. }
    red_state. destruct (Z.eqb_spec 0 0) as [_|]; [|contradiction].
    intros [= <-]. red_state.
    count_with H0.
  - assert (H0 : forall old,
      Z.land (USISR_written (u8 (Z.lnot USICNT)) old) 0x0F = 0).
    { intros old. now rewrite counter_written. }
    intros Hrun.
    destruct (ovf_master_ack SDAP SCLP I2CPN
                (mkState st0 rd0 ak0 regs0 dir0 dr0 sr0 cr0 dd0 pp0))
      as [t|] eqn:Ht.
    2:{ unfold ovf_master_ack in Ht. red_state. rewrite Ht in Hrun.
        discriminate. }
    unfold ovf_master_ack in Ht. red_state. rewrite Ht in Hrun.
    red_state.
    destruct t as [st1 rd1 ak1 regs1 dir1 dr1 sr1 cr1 dd1 pp1]. red_state.
    revert Hrun.
    destruct (st1 =? 3); [|destruct (st1 =? 4)]; red_state.
    + split_ifs; red_state; intros [= <-]; red_state; apply H0.
    + destruct (load8 regs1 rd1); [|discriminate].
      red_state. intros [= <-]. red_state. apply H0.
    + intros [= <-]. red_state. apply H0.
Qed.

End MoreEngineFacts.

(** * The further properties at the example configuration *)

Lemma wide_access_bounds_witness :
  0 <= 255 /\
  usi_i2c_save_registers_u16 0x1234 255 power_on = Err OutOfBounds /\
  usi_i2c_read_registers_u32 253 power_on = Err OutOfBounds.
Proof.
  split; [lia|].
  destruct (wide_access_bounds 0x1234 255 power_on) as (H16 & _ & _ & _); [lia|].
  destruct (wide_access_bounds 0 253 power_on) as (_ & _ & _ & H32); [lia|].
  split; [apply H16|apply H32]; vm_compute; lia.
Defined.

Lemma u8_round_trip_witness :
  exists s', usi_i2c_save_registers_u8 0xAB 5 power_on = Ok s' /\
    usi_i2c_read_registers_u8 5 s' = Ok 0xAB.
Proof. apply (u8_round_trip 0xAB 5 power_on); [lia|lia|vm_compute; lia]. Defined.

Lemma s8_round_trip_witness :
  exists s', usi_i2c_save_registers_s8 (-2) 5 power_on = Ok s' /\
    usi_i2c_read_registers_s8 5 s' = Ok (-2).
Proof. apply (s8_round_trip (-2) 5 power_on); [lia|lia|vm_compute; lia]. Defined.

Lemma u16_save_layout_and_readback_witness :
  exists s', usi_i2c_save_registers_u16 0x1234 5 power_on = Ok s' /\
    registers s' !! 5%nat = Some 0x12 /\ registers s' !! 6%nat = Some 0x34 /\
    usi_i2c_read_registers_u16 5 s' = Ok 0x3412.
Proof.
  apply (u16_save_layout_and_readback 0x1234 5 power_on);
    [lia|lia|vm_compute; lia].
Defined.

Lemma u32_save_layout_and_readback_witness :
  exists s', usi_i2c_save_registers_u32 0x12345678 5 power_on = Ok s' /\
    registers s' !! 5%nat = Some 0x12 /\ registers s' !! 6%nat = Some 0x34 /\
    registers s' !! 7%nat = Some 0x56 /\ registers s' !! 8%nat = Some 0x78 /\
    usi_i2c_read_registers_u32 5 s' = Ok 0x78563412.
Proof.
  apply (u32_save_layout_and_readback 0x12345678 5 power_on);
    [lia|vm_compute; lia].
Defined.

Lemma u16_double_round_trip_witness :
  exists s1 v s2,
    usi_i2c_save_registers_u16 0x1234 5 power_on = Ok s1 /\
    usi_i2c_read_registers_u16 5 s1 = Ok v /\
    usi_i2c_save_registers_u16 v 5 s1 = Ok s2 /\
    usi_i2c_read_registers_u16 5 s2 = Ok 0x1234 /\
    registers s2 !! 5%nat = Some 0x34 /\ registers s2 !! 6%nat = Some 0x12.
Proof.
  apply (u16_double_round_trip 0x1234 5 power_on); [lia|lia|vm_compute; lia].
Defined.

Lemma save_changes_only_its_bytes_witness :
  exists s', usi_i2c_save_registers_u16 0x1234 5 numbered = Ok s' /\
    registers s' !! 4%nat = Some 4 /\ registers s' !! 7%nat = Some 7 /\
    direction s' = 0x20.
Proof.
  destruct (usi_i2c_save_registers_u16 0x1234 5 numbered) as [s'|] eqn:Hs;
    [|vm_compute in Hs; discriminate].
  destruct (save_changes_only_its_bytes 2 0x1234 5 numbered s')
    as (_ & Hout & _ & _ & _ & Hdir & _).
  - lia.
  - right. left. split; [reflexivity|]. left. exact Hs.
  - exists s'. split; [reflexivity|].
    rewrite (Hout 4%nat), (Hout 7%nat), Hdir by (cbn; lia).
    repeat split.
Defined.

Lemma usi_i2c_slave_postcondition_witness :
  direction example_slave = 0x20 /\ USICR example_slave = 0xA8 /\
  oie example_slave = false /\ status example_slave = status power_on.
Proof.
  destruct (usi_i2c_slave_postcondition 0 2 0x20 power_on)
    as (Hdir & Hcr & _ & Ho & _ & _ & _ & _ & _ & _ & _ & Hst & _); [lia|lia|].
  exact (conj Hdir (conj Hcr (conj Ho Hst))).
Defined.

Lemma idle_until_start_witness :
  Forall not_start [OVF 0x40 []; STOP; OVF 0x41 [0]] /\
  exists s', run 0 2 [OVF 0x40 []; STOP; OVF 0x41 [0]] example_slave = Ok (s', []) /\
    status s' = 0 /\ rdir s' = 0.
Proof.
  assert (Hes : Forall not_start [OVF 0x40 []; STOP; OVF 0x41 [0]])
    by (repeat constructor).
  split; [exact Hes|].
  destruct (idle_until_start 0 2 0x20 power_on _ Hes)
    as (s' & Hrun & Hst & Hrd & _).
  exists s'. auto.
Defined.

Lemma address_match_acknowledged_witness :
  status (address_received 0x41) = 0 /\ ack (address_received 0x41) = 0 /\
  exists s', USI_OVF_vect 0 2 [] (address_received 0x41) = Ok s' /\
    status s' = 4 /\ ack s' = 1 /\ Z.testbit (I2CD s') 0 = true.
Proof.
  split; [reflexivity|]. split; [reflexivity|].
  destruct (address_match_acknowledged 0 2 [] (address_received 0x41))
    as (s' & Hrun & Hst & Hak & _ & _ & _ & _ & Hsda);
    [lia|lia|reflexivity|reflexivity|reflexivity|].
  exists s'. auto.
Defined.

Lemma acknowledge_released_witness :
  ack pointer_acknowledged <> 0 /\ status pointer_acknowledged = 2 /\
  exists s', USI_OVF_vect 0 2 [] pointer_acknowledged = Ok s' /\
    Z.testbit (I2CD s') 0 = false /\ ack s' = 0.
Proof.
  split; [vm_compute; discriminate|]. split; [reflexivity|].
  destruct (acknowledge_released 0 2 [] pointer_acknowledged)
    as (s' & Hrun & Hsda & Hak & _);
    [lia|lia|vm_compute; discriminate|right; left; reflexivity|].
  exists s'. auto.
Defined.

Lemma register_file_written_only_by_data_bytes_witness :
  deliver 0 2 (OVF 0xAB []) expecting_data
  = Ok (after_event (OVF 0xAB []) expecting_data, []) /\
  registers (after_event (OVF 0xAB []) expecting_data)
  = <[3%nat := 0xAB]> (registers numbered).
Proof.
  assert (Hd : deliver 0 2 (OVF 0xAB []) expecting_data
               = Ok (after_event (OVF 0xAB []) expecting_data, []))
    by (vm_compute; reflexivity).
  split; [exact Hd|].
  destruct (register_file_written_only_by_data_bytes 0 2 _ _ _ _ Hd)
    as [_ [Hregs|(dr & pins & He & _ & _ & _ & _ & Hregs)]].
  - vm_compute in Hregs. congruence.
  - injection He as <- _. exact Hregs.
Defined.


Lemma engine_stays_well_formed_witness :
  well_formed numbered /\
  exists s', run 0 2 (write_events 0x40 255 [1; 2]) numbered = Ok (s', []) /\
    well_formed s' /\ length (registers s') = 256%nat.
Proof.
  assert (Hwf : well_formed numbered) by (vm_compute; intuition discriminate).
  split; [exact Hwf|].
  destruct (run 0 2 (write_events 0x40 255 [1; 2]) numbered) as [[s' out]|] eqn:Hr;
    [|vm_compute in Hr; discriminate].
  assert (Hes : Forall byte_event (write_events 0x40 255 [1; 2]))
    by (repeat constructor; cbn; lia).
  destruct (engine_stays_well_formed 0 2 _ _ _ _ Hwf Hes Hr) as [Hwf' Hlen].
  exists s'. assert (out = []) as ->.
  { vm_compute in Hr. now injection Hr as _ <-. }
  split; [reflexivity|]. split; [exact Hwf'|exact Hlen].
Defined.

Lemma mismatch_then_match_witness :
  ready numbered /\ Z.shiftr 0x20 1 <> direction numbered /\
  Z.shiftr 0x40 1 = direction numbered /\
  exists s', run 0 2 [START; OVF 0x20 []; OVF 0x40 []] numbered = Ok (s', []) /\
    status s' = 1 /\ ack s' = 1 /\ Z.testbit (I2CD s') 0 = true.
Proof.
  split; [exact numbered_ready|]. split; [vm_compute; discriminate|].
  split; [reflexivity|].
  apply (mismatch_then_match 0 2 numbered 0x20 0x40);
    [lia|lia|exact numbered_ready|vm_compute; discriminate|reflexivity].
Defined.

Lemma small_ready : ready small_slave.
Proof. unfold ready. vm_compute. auto. Qed.

Lemma pointer_outside_register_file_witness :
  ready small_slave /\ (length (registers small_slave) <= Z.to_nat 16)%nat /\
  run 0 2 (write_events 0x40 16 [0xAB]) small_slave = Err OutOfBounds /\
  run 0 2 (write_events 0x40 16 [] ++ read_events 0x41 []) small_slave
  = Err OutOfBounds.
Proof.
  split; [exact small_ready|]. split; [vm_compute; lia|].
  apply (pointer_outside_register_file 0 2 small_slave 0x40 0x41 16 0xAB);
    [exact small_ready|reflexivity|reflexivity|reflexivity|reflexivity|lia|
     vm_compute; lia].
Defined.

Lemma read_after_nack_starts_at_zero_witness :
  ready expecting_data /\ rdir expecting_data = 3 /\ nacked 0 2 NACK /\
  exists s1 out s2,
    run 0 2 (read_events 0x41 [ACK] ++ byte_out NACK) expecting_data
    = Ok (s1, out) /\
    run 0 2 (read_events 0x41 []) s1 = Ok (s2, [0]) /\ rdir s2 = 0.
Proof.
  assert (Hready : ready expecting_data) by (unfold ready; vm_compute; auto).
  split; [exact Hready|]. split; [reflexivity|]. split; [exact NACK_nacked|].
  apply (read_after_nack_starts_at_zero 0 2 expecting_data 0x41 [ACK] NACK 0).
  - exact Hready.
  - change (rdir expecting_data) with 3. lia.
  - reflexivity.
  - reflexivity.
  - constructor; [exact ACK_acked|constructor].
  - exact NACK_nacked.
  - intros j _. pose proof (u8_range (rdir expecting_data + j)).
    change (length (registers expecting_data)) with 256%nat. lia.
  - reflexivity.
Defined.

Lemma master_write_read_by_application_witness :
  ready numbered /\
  exists s', run 0 2 (write_events 0x40 255 [0xAB; 0xCD]) numbered = Ok (s', []) /\
    usi_i2c_read_registers_u8 255 s' = Ok 0xAB /\
    usi_i2c_read_registers_u8 0 s' = Ok 0xCD.
Proof.
  split; [exact numbered_ready|].
  destruct (master_write_read_by_application 0 2 numbered 0x40 255 [0xAB; 0xCD])
    as (s' & Hrun & Hread).
  - exact numbered_ready.
  - reflexivity.
  - reflexivity.
  - lia.
  - intros i _. apply numbered_in_range.
  - exists s'. split; [exact Hrun|]. split.
    + apply (Hread 0 0xAB); [cbn; lia|cbn; lia|reflexivity].
    + apply (Hread 1 0xCD); [cbn; lia|cbn; lia|reflexivity].
Defined.

Lemma application_save_read_by_master_witness :
  ready numbered /\ acked 0 2 ACK /\
  exists s1 s2,
    usi_i2c_save_registers_u16 0x1234 5 numbered = Ok s1 /\
    run 0 2 (write_events 0x40 5 [] ++ read_events 0x41 [ACK]) s1
    = Ok (s2, [0x12; 0x34]).
Proof.
  split; [exact numbered_ready|]. split; [exact ACK_acked|].
  apply (application_save_read_by_master 0 2 numbered 0x1234 5 0x40 0x41 ACK).
  - exact numbered_ready.
  - lia.
  - lia.
  - lia.
  - vm_compute. lia.
  - reflexivity.
  - reflexivity.
  - reflexivity.
  - reflexivity.
  - exact ACK_acked.
Defined.

Lemma stop_before_start_is_forgotten_witness :
  sie expecting_data = true /\
  run 0 2 [STOP; START] expecting_data = run 0 2 [START] expecting_data.
Proof.
  split; [reflexivity|].
  apply (stop_before_start_is_forgotten 0 2 expecting_data). reflexivity.
Defined.

Lemma counter_after_overflow_witness :
  USI_OVF_vect 0 2 [] (address_received 0x40)
  = Ok (after_event (OVF 0x40 []) (after_event START numbered)) /\
  Z.land (USISR (after_event (OVF 0x40 []) (after_event START numbered))) 0x0F
  = 14.
Proof.
  assert (Hrun : USI_OVF_vect 0 2 [] (address_received 0x40)
    = Ok (after_event (OVF 0x40 []) (after_event START numbered)))
    by (vm_compute; reflexivity).
  split; [exact Hrun|].
  rewrite (counter_after_overflow 0 2 _ _ _ Hrun). reflexivity.
Defined.
